(** * Winote: the pointer-type bridge of the Windows runner

    A shallow embedding of [windows/runner/flutter_window.cpp] and
    [flutter_window.h]: the capability prober ([InitializePointerApi]), the two
    interception points ([FlutterWindow::MessageHandler] and
    [FlutterViewSubclassProc]), the classifier
    ([FlutterWindow::HandlePointerMessage]) and the forwarder
    ([FlutterWindow::SendPointerTypeToDart]).

    The program state is a record [World] holding the file-level statics and
    the members of the single [FlutterWindow].  Every function is a state
    transformer that also yields the list of calls it makes out of the
    translation unit (logging, OS queries, the method channel, the next window
    procedure), so that "what a message caused" is the output of one call.  What
    the operating system and the hosted runtime answer is not decided by this
    code; it is supplied with each call as an [Env]. *)

From stdpp Require Import gmap strings pretty list.

Local Open Scope Z_scope.

(** ** Machine data *)

(** Handles, procedure addresses and message words are kept as integers; a
    null pointer is [None] wherever the code tests for it. *)
Definition HWND := Z.
Definition HMODULE := Z.
Definition FARPROC := Z.
Definition WNDPROC := Z.
Definition LRESULT := Z.

(** A value stored in a [UINT32] variable. *)
Definition UINT32 (z : Z) : Z := z mod 2 ^ 32.

(** [static_cast<int>] of a [UINT32]: two's complement reinterpretation. *)
Definition static_cast_int (z : Z) : Z := (z + 2 ^ 31) mod 2 ^ 32 - 2 ^ 31.

Definition WM_FONTCHANGE : Z := 0x001D.   (* winuser.h *)
Definition WM_POINTERUPDATE : Z := 0x0245.
Definition WM_POINTERDOWN : Z := 0x0246.
Definition WM_POINTERUP : Z := 0x0247.
Definition WM_POINTERENTER : Z := 0x0249.
Definition WM_POINTERLEAVE : Z := 0x024A.

Definition PT_POINTER : Z := 1.
Definition PT_TOUCH : Z := 2.
Definition PT_PEN : Z := 3.
Definition PT_MOUSE : Z := 4.
Definition PT_TOUCHPAD : Z := 5.

Definition LOWORD (w : Z) : Z := Z.land w 0xFFFF.
Definition GET_POINTERID_WPARAM (wParam : Z) : Z := LOWORD wParam.

(** The fields of [POINTER_PEN_INFO] after the embedded [POINTER_INFO]. *)
Record POINTER_PEN_INFO := mkPenInfo {
  penFlags : Z;
  penMask : Z;
  pressure : Z;
  rotation : Z;
  tiltX : Z;
  tiltY : Z
}.

(** ** Values sent over the method channel *)

Inductive EncodableValue :=
| EncodableInt (i : Z)
| EncodableString (s : string).

Global Instance EncodableValue_eq_dec : EqDecision EncodableValue.
Proof. solve_decision. Defined.

Global Instance EncodableValue_countable : Countable EncodableValue.
Proof.
  refine (inj_countable'
            (λ v, match v with EncodableInt i => inl i | EncodableString s => inr s end)
            (λ x, match x with inl i => EncodableInt i | inr s => EncodableString s end) _).
  intros []; reflexivity.
Defined.

(** [flutter::EncodableMap] is a [std::map<EncodableValue, EncodableValue>]. *)
Abbreviation EncodableMap := (gmap EncodableValue EncodableValue).

(** ** Calls leaving the translation unit *)

Inductive Effect :=
| LogLine (message : string)
| GetModuleHandleA_call (name : string)
| GetProcAddress_call (module : HMODULE) (name : string)
| GetPointerType_call (pointerId : Z)
| GetPointerPenInfo_call (pointerId : Z)
| SendPointerTypeToDart_call (pointerId pointerType pressure : Z)
| InvokeMethod (channel method : string) (args : EncodableMap)
| CallWindowProc (proc : WNDPROC) (hwnd : HWND) (message wparam lparam : Z)
| DefWindowProc (hwnd : HWND) (message wparam lparam : Z)
| HandleTopLevelWindowProc (hwnd : HWND) (message wparam lparam : Z)
| ReloadSystemFonts
| Win32Window_MessageHandler (hwnd : HWND) (message wparam lparam : Z)
| Win32Window_OnCreate
| Win32Window_OnDestroy
| CreateFlutterViewController
| RegisterPlugins
| SetChildContent (hwnd : option HWND)
| SetWindowLongPtr_WNDPROC (hwnd : HWND)
| SetNextFrameCallback
| ForceRedraw.

Global Instance Effect_eq_dec : EqDecision Effect.
Proof. solve_decision. Defined.

(** ** Program state *)

Record World := mkWorld {
  (* file-level statics *)
  g_pointer_api_initialized : bool;
  g_GetPointerType : option FARPROC;
  g_GetPointerPenInfo : option FARPROC;
  g_flutter_window : bool;                       (* non-null *)
  g_original_flutter_view_proc : option WNDPROC;
  (* members of FlutterWindow *)
  flutter_controller_ : bool;                    (* non-null *)
  pointer_channel_ : option string;              (* the channel's name *)
  pointer_type_cache_ : gmap Z Z;
  original_flutter_view_proc_ : option WNDPROC;
  flutter_view_hwnd_ : option HWND
}.

(** The state of a fresh process: every static and member at its initialiser. *)
Definition initial_world : World :=
  mkWorld false None None false None false None ∅ None None.

Definition set_g_pointer_api_initialized (b : bool) (s : World) : World :=
  mkWorld b (g_GetPointerType s) (g_GetPointerPenInfo s) (g_flutter_window s)
    (g_original_flutter_view_proc s) (flutter_controller_ s) (pointer_channel_ s)
    (pointer_type_cache_ s) (original_flutter_view_proc_ s) (flutter_view_hwnd_ s).

Definition set_g_GetPointerType (p : option FARPROC) (s : World) : World :=
  mkWorld (g_pointer_api_initialized s) p (g_GetPointerPenInfo s) (g_flutter_window s)
    (g_original_flutter_view_proc s) (flutter_controller_ s) (pointer_channel_ s)
    (pointer_type_cache_ s) (original_flutter_view_proc_ s) (flutter_view_hwnd_ s).

Definition set_g_GetPointerPenInfo (p : option FARPROC) (s : World) : World :=
  mkWorld (g_pointer_api_initialized s) (g_GetPointerType s) p (g_flutter_window s)
    (g_original_flutter_view_proc s) (flutter_controller_ s) (pointer_channel_ s)
    (pointer_type_cache_ s) (original_flutter_view_proc_ s) (flutter_view_hwnd_ s).

Definition set_g_flutter_window (b : bool) (s : World) : World :=
  mkWorld (g_pointer_api_initialized s) (g_GetPointerType s) (g_GetPointerPenInfo s) b
    (g_original_flutter_view_proc s) (flutter_controller_ s) (pointer_channel_ s)
    (pointer_type_cache_ s) (original_flutter_view_proc_ s) (flutter_view_hwnd_ s).

Definition set_g_original_flutter_view_proc (p : option WNDPROC) (s : World) : World :=
  mkWorld (g_pointer_api_initialized s) (g_GetPointerType s) (g_GetPointerPenInfo s)
    (g_flutter_window s) p (flutter_controller_ s) (pointer_channel_ s)
    (pointer_type_cache_ s) (original_flutter_view_proc_ s) (flutter_view_hwnd_ s).

Definition set_flutter_controller_ (b : bool) (s : World) : World :=
  mkWorld (g_pointer_api_initialized s) (g_GetPointerType s) (g_GetPointerPenInfo s)
    (g_flutter_window s) (g_original_flutter_view_proc s) b (pointer_channel_ s)
    (pointer_type_cache_ s) (original_flutter_view_proc_ s) (flutter_view_hwnd_ s).

Definition set_pointer_channel_ (c : option string) (s : World) : World :=
  mkWorld (g_pointer_api_initialized s) (g_GetPointerType s) (g_GetPointerPenInfo s)
    (g_flutter_window s) (g_original_flutter_view_proc s) (flutter_controller_ s) c
    (pointer_type_cache_ s) (original_flutter_view_proc_ s) (flutter_view_hwnd_ s).

Definition set_pointer_type_cache_ (c : gmap Z Z) (s : World) : World :=
  mkWorld (g_pointer_api_initialized s) (g_GetPointerType s) (g_GetPointerPenInfo s)
    (g_flutter_window s) (g_original_flutter_view_proc s) (flutter_controller_ s)
    (pointer_channel_ s) c (original_flutter_view_proc_ s) (flutter_view_hwnd_ s).

Definition set_original_flutter_view_proc_ (p : option WNDPROC) (s : World) : World :=
  mkWorld (g_pointer_api_initialized s) (g_GetPointerType s) (g_GetPointerPenInfo s)
    (g_flutter_window s) (g_original_flutter_view_proc s) (flutter_controller_ s)
    (pointer_channel_ s) (pointer_type_cache_ s) p (flutter_view_hwnd_ s).

Definition set_flutter_view_hwnd_ (h : option HWND) (s : World) : World :=
  mkWorld (g_pointer_api_initialized s) (g_GetPointerType s) (g_GetPointerPenInfo s)
    (g_flutter_window s) (g_original_flutter_view_proc s) (flutter_controller_ s)
    (pointer_channel_ s) (pointer_type_cache_ s) (original_flutter_view_proc_ s) h.

(** ** The monad of the runner: state and a log of outgoing calls *)

#[projections(primitive)]
Record Result (A : Type) := mkResult {
  val : A;
  world : World;
  out : list Effect
}.
Arguments mkResult {A} _ _ _.
Arguments val {A} _.
Arguments world {A} _.
Arguments out {A} _.

Definition M (A : Type) : Type := World → Result A.

Global Instance M_ret : MRet M := λ A a s, mkResult a s [].

Global Instance M_bind : MBind M := λ A B k m s,
  let r1 := m s in
  let r2 := k (val r1) (world r1) in
  mkResult (val r2) (world r2) (out r1 ++ out r2).

Definition get {A} (field : World → A) : M A := λ s, mkResult (field s) s [].
Definition modify (f : World → World) : M unit := λ s, mkResult () (f s) [].
Definition emit (e : Effect) : M unit := λ s, mkResult () s [e].

(** An external call: it is recorded, and its answer comes from outside. *)
Definition extern {A} (e : Effect) (answer : A) : M A := λ s, mkResult answer s [e].

(** [LogToFile]: the diagnostics side channel.  Opening the file and the time
    stamp are left out; what is recorded is the message handed to it. *)
Definition LogToFile (message : string) : M unit := emit (LogLine message).

(** ** Capability prober *)

(** What the loader answers when the prober runs. *)
Record Loader := mkLoader {
  GetModuleHandleA : string → option HMODULE;
  GetProcAddress : HMODULE → string → option FARPROC
}.

Definition InitializePointerApi (ld : Loader) : M unit :=
  initialized ← get g_pointer_api_initialized;
  if initialized : bool then mret () else
  modify (set_g_pointer_api_initialized true);;
  LogToFile "InitializePointerApi: Starting...";;
  user32 ← extern (GetModuleHandleA_call "user32.dll") (GetModuleHandleA ld "user32.dll");
  match user32 with
  | Some user32 =>
      p ← extern (GetProcAddress_call user32 "GetPointerType")
                 (GetProcAddress ld user32 "GetPointerType");
      modify (set_g_GetPointerType p);;
      q ← extern (GetProcAddress_call user32 "GetPointerPenInfo")
                 (GetProcAddress ld user32 "GetPointerPenInfo");
      modify (set_g_GetPointerPenInfo q);;
      gt ← get g_GetPointerType;
      gp ← get g_GetPointerPenInfo;
      if bool_decide (is_Some gt) && bool_decide (is_Some gp)
      then LogToFile "InitializePointerApi: Pointer API initialized successfully"
      else LogToFile "InitializePointerApi: Pointer API not available"
  | None => LogToFile "InitializePointerApi: Failed to get user32.dll handle"
  end.

(** ** What the platform answers while one message is handled *)

Record Env := mkEnv {
  (* BOOL GetPointerType(id, &type): [None] is a FALSE return *)
  os_GetPointerType : Z → option Z;
  (* BOOL GetPointerPenInfo(id, &info) *)
  os_GetPointerPenInfo : Z → option POINTER_PEN_INFO;
  os_GetLastError : Z;
  (* results of the next handlers in the chain *)
  ans_CallWindowProc : LRESULT;
  ans_DefWindowProc : LRESULT;
  ans_HandleTopLevelWindowProc : option LRESULT;
  ans_Win32Window_MessageHandler : LRESULT
}.

(** ** Event forwarder *)

Definition SendPointerTypeToDart (pointerId pointerType pressure : Z) : M unit :=
  emit (SendPointerTypeToDart_call pointerId pointerType pressure);;
  channel ← get pointer_channel_;
  match channel with
  | None => LogToFile "SendPointerTypeToDart: pointer_channel_ is null!"
  | Some channel =>
      let args : EncodableMap := ∅ in
      let args := <[EncodableString "pointerId" := EncodableInt (static_cast_int pointerId)]> args in
      let args := <[EncodableString "pointerType" := EncodableInt (static_cast_int pointerType)]> args in
      let args := <[EncodableString "pressure" := EncodableInt (static_cast_int pressure)]> args in
      LogToFile ("SendPointerTypeToDart: Sending pointer " +:+ pretty pointerId
                 +:+ ", type " +:+ pretty pointerType
                 +:+ ", pressure " +:+ pretty pressure +:+ " to Dart");;
      emit (InvokeMethod channel "onPointerTypeDetected" args)
  end.

(** ** Pointer classifier *)

Definition typeStr (pointerType : Z) : string :=
  if decide (pointerType = PT_PEN) then "PEN"
  else if decide (pointerType = PT_TOUCH) then "TOUCH"
  else if decide (pointerType = PT_MOUSE) then "MOUSE"
  else "OTHER".

Definition HandlePointerMessage (env : Env) (message wparam lparam : Z) : M unit :=
  gt ← get g_GetPointerType;
  match gt with
  | None => LogToFile "HandlePointerMessage: g_GetPointerType is null!"
  | Some _ =>
      let pointerId := GET_POINTERID_WPARAM wparam in
      answer ← extern (GetPointerType_call pointerId) (os_GetPointerType env pointerId);
      match answer with
      | Some pointerType =>
          let pointerType := UINT32 pointerType in
          (* Cache the pointer type *)
          cache ← get pointer_type_cache_;
          modify (set_pointer_type_cache_ (<[pointerId := pointerType]> cache));;
          gp ← get g_GetPointerPenInfo;
          (* Get pen-specific info if it's a pen *)
          pressure ←
            (if bool_decide (pointerType = PT_PEN) && bool_decide (is_Some gp)
             then
               penInfo ← extern (GetPointerPenInfo_call pointerId)
                                (os_GetPointerPenInfo env pointerId);
               match penInfo with
               | Some penInfo => mret (UINT32 (pressure penInfo))
               | None => mret 0
               end
             else mret 0);
          (* Only send on DOWN events to reduce traffic *)
          if decide (message = WM_POINTERDOWN) then
            LogToFile ("HandlePointerMessage: Pointer " +:+ pretty pointerId
                       +:+ " type: " +:+ typeStr pointerType
                       +:+ " (value: " +:+ pretty pointerType
                       +:+ "), pressure: " +:+ pretty pressure);;
            SendPointerTypeToDart pointerId pointerType pressure
          else mret ()
      | None =>
          LogToFile ("HandlePointerMessage: GetPointerType failed for pointer "
                     +:+ pretty pointerId +:+ ", error: " +:+ pretty (os_GetLastError env))
      end
  end.

Definition ProcessPointerMessage (env : Env) (hwnd : HWND) (message wparam lparam : Z) : M unit :=
  HandlePointerMessage env message wparam lparam.

(** ** Interception point on the hosted view (subclass procedure) *)

Definition FlutterViewSubclassProc (env : Env) (hwnd : HWND) (message wparam lparam : Z)
  : M LRESULT :=
  (* Intercept WM_POINTER messages *)
  (if decide (message = WM_POINTERDOWN) then
     LogToFile "FlutterViewSubclassProc: WM_POINTERDOWN received";;
     w ← get g_flutter_window;
     if w : bool then ProcessPointerMessage env hwnd message wparam lparam else mret ()
   else if decide (message = WM_POINTERUP) then
     LogToFile "FlutterViewSubclassProc: WM_POINTERUP received";;
     w ← get g_flutter_window;
     if w : bool then ProcessPointerMessage env hwnd message wparam lparam else mret ()
   else if decide (message = WM_POINTERUPDATE) then
     (* Don't log every update (too noisy), just process *)
     w ← get g_flutter_window;
     if w : bool then ProcessPointerMessage env hwnd message wparam lparam else mret ()
   else if decide (message = WM_POINTERENTER) then
     LogToFile "FlutterViewSubclassProc: WM_POINTERENTER received";;
     w ← get g_flutter_window;
     if w : bool then ProcessPointerMessage env hwnd message wparam lparam else mret ()
   else if decide (message = WM_POINTERLEAVE) then
     LogToFile "FlutterViewSubclassProc: WM_POINTERLEAVE received";;
     w ← get g_flutter_window;
     if w : bool then ProcessPointerMessage env hwnd message wparam lparam else mret ()
   else mret ());;
  (* Call original window procedure *)
  original ← get g_original_flutter_view_proc;
  match original with
  | Some proc =>
      extern (CallWindowProc proc hwnd message wparam lparam) (ans_CallWindowProc env)
  | None =>
      extern (DefWindowProc hwnd message wparam lparam) (ans_DefWindowProc env)
  end.

(** ** Interception point on the top-level window *)

(** What a call of the top-level handler comes to.  [NullDereference] is the
    [WM_FONTCHANGE] arm reached while [flutter_controller_] is null. *)
Inductive Outcome :=
| Returned (result : LRESULT)
| NullDereference.

Global Instance Outcome_eq_dec : EqDecision Outcome.
Proof. solve_decision. Defined.

Definition MessageHandler (env : Env) (hwnd : HWND) (message wparam lparam : Z)
  : M Outcome :=
  (* Handle WM_POINTER messages BEFORE Flutter processes them *)
  (if decide (message = WM_POINTERDOWN ∨ message = WM_POINTERUP
              ∨ message = WM_POINTERUPDATE ∨ message = WM_POINTERENTER) then
     HandlePointerMessage env message wparam lparam
   else if decide (message = WM_POINTERLEAVE) then
     (* Clean up cache when pointer leaves *)
     let pointerId := GET_POINTERID_WPARAM wparam in
     cache ← get pointer_type_cache_;
     modify (set_pointer_type_cache_ (delete pointerId cache))
   else mret ());;
  (* Give Flutter, including plugins, an opportunity to handle window messages. *)
  controller ← get flutter_controller_;
  result ←
    (if controller : bool
     then extern (HandleTopLevelWindowProc hwnd message wparam lparam)
                 (ans_HandleTopLevelWindowProc env)
     else mret None);
  match result with
  | Some result => mret (Returned result)
  | None =>
      let base : M Outcome :=
        r ← extern (Win32Window_MessageHandler hwnd message wparam lparam)
                   (ans_Win32Window_MessageHandler env);
        mret (Returned r) in
      if decide (message = WM_FONTCHANGE) then
        if controller : bool then emit ReloadSystemFonts;; base
        else mret NullDereference
      else base
  end.

(** ** Construction, set-up and tear-down of the window *)

(** [FlutterWindow::FlutterWindow]: the members take their initialisers, the
    prober runs, and the window registers itself for the subclass callback. *)
Definition FlutterWindow_ctor (ld : Loader) : M unit :=
  modify (set_flutter_controller_ false);;
  modify (set_pointer_channel_ None);;
  modify (set_pointer_type_cache_ ∅);;
  modify (set_original_flutter_view_proc_ None);;
  modify (set_flutter_view_hwnd_ None);;
  InitializePointerApi ld;;
  modify (set_g_flutter_window true).

Definition FlutterWindow_dtor : M unit :=
  modify (set_g_flutter_window false).

(** What the platform and the engine answer during [OnCreate]. *)
Record CreateEnv := mkCreateEnv {
  ans_Win32Window_OnCreate : bool;
  ans_engine : bool;                         (* engine() is non-null *)
  ans_view : bool;                           (* view() is non-null *)
  ans_GetNativeWindow : option HWND;
  ans_SetWindowLongPtr : option WNDPROC;     (* the previous procedure *)
  ans_GetLastError : Z
}.

Section Lifecycle.

(** How the stream prints a window handle and a procedure address. *)
Variable show_HWND : HWND → string.
Variable show_WNDPROC : WNDPROC → string.

Definition SubclassFlutterView (ce : CreateEnv) : M unit :=
  view ← get flutter_view_hwnd_;
  match view with
  | None =>
      LogToFile "SubclassFlutterView: ERROR - Flutter view HWND is null, cannot subclass"
  | Some view =>
      LogToFile ("SubclassFlutterView: Attempting to subclass HWND " +:+ show_HWND view);;
      (* Subclass the Flutter view window *)
      previous ← extern (SetWindowLongPtr_WNDPROC view) (ans_SetWindowLongPtr ce);
      modify (set_g_original_flutter_view_proc previous);;
      original ← get g_original_flutter_view_proc;
      match original with
      | Some proc =>
          modify (set_original_flutter_view_proc_ (Some proc));;
          LogToFile ("SubclassFlutterView: SUCCESS - Flutter view subclassed (HWND: "
                     +:+ show_HWND view +:+ ", Original proc: " +:+ show_WNDPROC proc +:+ ")")
      | None =>
          LogToFile ("SubclassFlutterView: FAILED - Error code: "
                     +:+ pretty (ans_GetLastError ce))
      end
  end.

Definition OnCreate (ce : CreateEnv) : M bool :=
  ok ← extern Win32Window_OnCreate (ans_Win32Window_OnCreate ce);
  if negb ok then mret false else
  emit CreateFlutterViewController;;
  modify (set_flutter_controller_ true);;
  (* Ensure that basic setup of the controller was successful. *)
  if negb (ans_engine ce) || negb (ans_view ce) then mret false else
  emit RegisterPlugins;;
  (* Setup MethodChannel for pointer type communication *)
  modify (set_pointer_channel_ (Some "winote/pointer_type"));;
  LogToFile "OnCreate: MethodChannel 'winote/pointer_type' created";;
  (* Get Flutter view window handle and subclass it *)
  modify (set_flutter_view_hwnd_ (ans_GetNativeWindow ce));;
  view ← get flutter_view_hwnd_;
  emit (SetChildContent view);;
  SubclassFlutterView ce;;
  emit SetNextFrameCallback;;
  emit ForceRedraw;;
  mret true.

End Lifecycle.

Definition OnDestroy : M unit :=
  controller ← get flutter_controller_;
  (if controller : bool then modify (set_flutter_controller_ false) else mret ());;
  emit Win32Window_OnDestroy.

(** ** Message deliveries *)

(** The two interception paths. *)
Inductive Path := TopLevel | ChildView.

Global Instance Path_eq_dec : EqDecision Path.
Proof. solve_decision. Defined.

(** One call of a window procedure, with a raw message number. *)
Definition dispatch (via : Path) (env : Env) (hwnd : HWND) (message wparam lparam : Z)
  : M Outcome :=
  match via with
  | TopLevel => MessageHandler env hwnd message wparam lparam
  | ChildView =>
      r ← FlutterViewSubclassProc env hwnd message wparam lparam;
      mret (Returned r)
  end.

(** The five pointer message categories. *)
Inductive PointerKind := Down | Up | Update | Enter | Leave.

Global Instance PointerKind_eq_dec : EqDecision PointerKind.
Proof. solve_decision. Defined.

Definition message_of (k : PointerKind) : Z :=
  match k with
  | Down => WM_POINTERDOWN
  | Up => WM_POINTERUP
  | Update => WM_POINTERUPDATE
  | Enter => WM_POINTERENTER
  | Leave => WM_POINTERLEAVE
  end.

(** A pointer message as it reaches one of the two procedures, together with
    what the platform answers while it is handled. *)
Record PointerMessage := mkPointerMessage {
  via : Path;
  kind : PointerKind;
  pm_hwnd : HWND;
  pm_wparam : Z;
  pm_lparam : Z;
  pm_env : Env
}.

Definition pointer_id (d : PointerMessage) : Z := GET_POINTERID_WPARAM (pm_wparam d).

Definition deliver (d : PointerMessage) : M Outcome :=
  dispatch (via d) (pm_env d) (pm_hwnd d) (message_of (kind d)) (pm_wparam d) (pm_lparam d).

(** Messages are handled to completion, one after the other. *)
Fixpoint run (ds : list PointerMessage) : M unit :=
  match ds with
  | [] => mret ()
  | d :: ds => deliver d;; run ds
  end.

(** ** Reading the output of a call *)

(** A classification event: the arguments handed to the forwarder. *)
Record ClassificationEvent := mkEvent {
  ev_pointerId : Z;
  ev_pointerType : Z;
  ev_pressure : Z
}.

Global Instance ClassificationEvent_eq_dec : EqDecision ClassificationEvent.
Proof. solve_decision. Defined.

(** A message on the method channel. *)
Record MethodCall := mkMethodCall {
  mc_channel : string;
  mc_method : string;
  mc_args : EncodableMap
}.

Definition forwarded (o : list Effect) : list ClassificationEvent :=
  omap (λ e, match e with
             | SendPointerTypeToDart_call i t p => Some (mkEvent i t p)
             | _ => None
             end) o.

Definition channel_messages (o : list Effect) : list MethodCall :=
  omap (λ e, match e with
             | InvokeMethod c m a => Some (mkMethodCall c m a)
             | _ => None
             end) o.

Definition type_queries (o : list Effect) : list Z :=
  omap (λ e, match e with GetPointerType_call i => Some i | _ => None end) o.

Definition logged (o : list Effect) : list string :=
  omap (λ e, match e with LogLine m => Some m | _ => None end) o.

Definition loader_calls (o : list Effect) : list Effect :=
  omap (λ e, match e with
             | GetModuleHandleA_call _ | GetProcAddress_call _ _ => Some e
             | _ => None
             end) o.

(** The calls that hand a window message to the next handler. *)
Definition next_handlers (o : list Effect) : list Effect :=
  omap (λ e, match e with
             | CallWindowProc _ _ _ _ _ | DefWindowProc _ _ _ _
             | HandleTopLevelWindowProc _ _ _ _ | Win32Window_MessageHandler _ _ _ _ => Some e
             | _ => None
             end) o.

(** The payload the forwarder builds for an event. *)
Definition payload (ev : ClassificationEvent) : EncodableMap :=
  <[EncodableString "pressure" := EncodableInt (static_cast_int (ev_pressure ev))]>
    (<[EncodableString "pointerType" := EncodableInt (static_cast_int (ev_pointerType ev))]>
       (<[EncodableString "pointerId" := EncodableInt (static_cast_int (ev_pointerId ev))]> ∅)).

(** ** What the classifier computes *)

(** The pressure read for a pointer of type [pointerType]: the pen query is
    made only for a pen and only when the pen entry point was resolved. *)
Definition pen_pressure (env : Env) (s : World) (pointerId pointerType : Z) : Z :=
  if bool_decide (pointerType = PT_PEN) && bool_decide (is_Some (g_GetPointerPenInfo s))
  then match os_GetPointerPenInfo env pointerId with
       | Some penInfo => UINT32 (pressure penInfo)
       | None => 0
       end
  else 0.

(** The event the classifier hands to the forwarder for one message, if any. *)
Definition classification (env : Env) (s : World) (message wparam : Z)
  : option ClassificationEvent :=
  let pointerId := GET_POINTERID_WPARAM wparam in
  match g_GetPointerType s, os_GetPointerType env pointerId with
  | Some _, Some pointerType =>
      if decide (message = WM_POINTERDOWN)
      then Some (mkEvent pointerId (UINT32 pointerType)
                         (pen_pressure env s pointerId (UINT32 pointerType)))
      else None
  | _, _ => None
  end.

(** Whether a procedure hands the message to the classifier. *)
Definition routed (via : Path) (s : World) (message : Z) : bool :=
  match via with
  | TopLevel =>
      bool_decide (message = WM_POINTERDOWN ∨ message = WM_POINTERUP
                   ∨ message = WM_POINTERUPDATE ∨ message = WM_POINTERENTER)
  | ChildView =>
      bool_decide (message = WM_POINTERDOWN ∨ message = WM_POINTERUP
                   ∨ message = WM_POINTERUPDATE ∨ message = WM_POINTERENTER
                   ∨ message = WM_POINTERLEAVE)
      && g_flutter_window s
  end.

(** The contact table after one call of a window procedure. *)
Definition cache_after (via : Path) (env : Env) (s : World) (message wparam : Z) : gmap Z Z :=
  let pointerId := GET_POINTERID_WPARAM wparam in
  if routed via s message then
    match g_GetPointerType s, os_GetPointerType env pointerId with
    | Some _, Some pointerType => <[pointerId := UINT32 pointerType]> (pointer_type_cache_ s)
    | _, _ => pointer_type_cache_ s
    end
  else if bool_decide (via = TopLevel ∧ message = WM_POINTERLEAVE)
  then delete pointerId (pointer_type_cache_ s)
  else pointer_type_cache_ s.

(** The lines the subclass procedure logs before it looks at the window. *)
Definition subclass_log (message : Z) : list Effect :=
  if decide (message = WM_POINTERDOWN)
  then [LogLine "FlutterViewSubclassProc: WM_POINTERDOWN received"]
  else if decide (message = WM_POINTERUP)
  then [LogLine "FlutterViewSubclassProc: WM_POINTERUP received"]
  else if decide (message = WM_POINTERENTER)
  then [LogLine "FlutterViewSubclassProc: WM_POINTERENTER received"]
  else if decide (message = WM_POINTERLEAVE)
  then [LogLine "FlutterViewSubclassProc: WM_POINTERLEAVE received"]
  else [].

(** The calls by which a procedure hands the message on once its own
    handling is over. *)
Definition passed_on (via : Path) (env : Env) (s : World)
    (hwnd : HWND) (message wparam lparam : Z) : list Effect :=
  match via with
  | ChildView =>
      match g_original_flutter_view_proc s with
      | Some proc => [CallWindowProc proc hwnd message wparam lparam]
      | None => [DefWindowProc hwnd message wparam lparam]
      end
  | TopLevel =>
      if flutter_controller_ s then
        HandleTopLevelWindowProc hwnd message wparam lparam ::
        match ans_HandleTopLevelWindowProc env with
        | Some _ => []
        | None =>
            (if decide (message = WM_FONTCHANGE) then [ReloadSystemFonts] else [])
            ++ [Win32Window_MessageHandler hwnd message wparam lparam]
        end
      else if decide (message = WM_FONTCHANGE) then []
      else [Win32Window_MessageHandler hwnd message wparam lparam]
  end.

(** What the call returns. *)
Definition outcome_of (via : Path) (env : Env) (s : World) (message : Z) : Outcome :=
  match via with
  | ChildView =>
      match g_original_flutter_view_proc s with
      | Some _ => Returned (ans_CallWindowProc env)
      | None => Returned (ans_DefWindowProc env)
      end
  | TopLevel =>
      if flutter_controller_ s then
        match ans_HandleTopLevelWindowProc env with
        | Some result => Returned result
        | None => Returned (ans_Win32Window_MessageHandler env)
        end
      else if decide (message = WM_FONTCHANGE) then NullDereference
      else Returned (ans_Win32Window_MessageHandler env)
  end.

(** Whether a pointer message reaches the classifier at all: always on the
    top-level path unless it is a leave, and on the subclass path while a
    window is registered. *)
Definition reaches_classifier (s : World) (via : Path) (k : PointerKind) : Prop :=
  match via with
  | TopLevel => k ≠ Leave
  | ChildView => g_flutter_window s = true
  end.

(** The three statics of the prober. *)
Definition capabilities (s : World) : bool * option FARPROC * option FARPROC :=
  (g_pointer_api_initialized s, g_GetPointerType s, g_GetPointerPenInfo s).

(** A message that writes the entry of [id]: any pointer message but a leave
    that reaches the classifier for [id] with the device-type entry point
    resolved and the query succeeding. *)
Definition records (s : World) (id : Z) (d : PointerMessage) : Prop :=
  pointer_id d = id
  ∧ kind d ≠ Leave
  ∧ reaches_classifier s (via d) (kind d)
  ∧ is_Some (g_GetPointerType s)
  ∧ is_Some (os_GetPointerType (pm_env d) id).

(** A leave for [id]. *)
Definition erases (id : Z) (d : PointerMessage) : Prop :=
  pointer_id d = id ∧ kind d = Leave.

(** Some message of the sequence wrote the entry of [id] and no leave for
    [id] came after it. *)
Definition recorded_and_not_left (s : World) (id : Z) (ds : list PointerMessage) : Prop :=
  ∃ pre d post, ds = pre ++ d :: post ∧ records s id d ∧ Forall (λ d', ¬ erases id d') post.

(** ** The life of the process *)

(** What can happen to the window, in the order the platform decides: it is
    constructed, set up, receives window messages on either path, is torn
    down and destructed. *)
Inductive Step :=
| Construct (ld : Loader)
| Create (ce : CreateEnv)
| Window (via : Path) (env : Env) (hwnd : HWND) (message wparam lparam : Z)
| Destroy
| Destruct.

Section Process.

Variable show_HWND : HWND → string.
Variable show_WNDPROC : WNDPROC → string.

(** One step; the answer is whether the process is still running.  Only a
    null dereference stops it here: what the caller does with a failed
    [OnCreate] is outside these files. *)
Definition step (st : Step) : M bool :=
  match st with
  | Construct ld => FlutterWindow_ctor ld;; mret true
  | Create ce => OnCreate show_HWND show_WNDPROC ce;; mret true
  | Window via env hwnd message wparam lparam =>
      r ← dispatch via env hwnd message wparam lparam;
      mret (bool_decide (r ≠ NullDereference))
  | Destroy => OnDestroy;; mret true
  | Destruct => FlutterWindow_dtor;; mret true
  end.

Fixpoint process (steps : list Step) : M unit :=
  match steps with
  | [] => mret ()
  | st :: steps =>
      running ← step st;
      if running : bool then process steps else mret ()
  end.

End Process.

(** ** The claims of the specification that the code does not meet, in the
    specification's own words *)

(** "A ClassificationEvent is produced (a message is sent to the application
    channel) if and only if a pointer-down occurs for that identifier, the
    device-type capability is resolved, and the device-type query for that
    identifier succeeds on that message."  The query succeeds on a message
    when the message reaches the classifier and the platform answers it. *)
Definition classified_down (s : World) (ds : list PointerMessage) (id : Z) : Prop :=
  ∃ d, d ∈ ds ∧ kind d = Down ∧ pointer_id d = id
       ∧ is_Some (g_GetPointerType s)
       ∧ reaches_classifier s (via d) Down
       ∧ is_Some (os_GetPointerType (pm_env d) id).

Definition event_iff_as_specified (s : World) (ds : list PointerMessage) (id : Z) : Prop :=
  (∃ m, m ∈ channel_messages (out (run ds s))
        ∧ mc_args m !! EncodableString "pointerId" = Some (EncodableInt id))
  ↔ classified_down s ds id.

(** "A begin or update message for that identifier has been observed and no
    leave message for that identifier has been observed since." *)
Definition contact_open_as_specified (id : Z) (ds : list PointerMessage) : bool :=
  foldl (λ open d,
           if decide (pointer_id d = id) then
             match kind d with
             | Down | Update => true
             | Leave => false
             | Up | Enter => open
             end
           else open) false ds.

Definition table_invariant_as_specified (s : World) (ds : list PointerMessage) (id : Z) : Prop :=
  is_Some (pointer_type_cache_ (world (run ds s)) !! id)
  ↔ contact_open_as_specified id ds = true.

(** "On every pointer-leave message, on both interception paths, the cache
    entry for that identifier is removed and the message is not classified." *)
Definition leave_as_specified (via : Path) (env : Env) (s : World) (hwnd : HWND)
    (wparam lparam : Z) : Prop :=
  let r := dispatch via env hwnd WM_POINTERLEAVE wparam lparam s in
  pointer_type_cache_ (world r)
  = delete (GET_POINTERID_WPARAM wparam) (pointer_type_cache_ s)
  ∧ type_queries (out r) = []
  ∧ forwarded (out r) = [].

(** ** The two halves of a window procedure *)

(** What a procedure does itself before it hands the message on: the first
    [switch] of [FlutterViewSubclassProc] and of [MessageHandler]. *)
Definition local_handling (via : Path) (env : Env) (hwnd : HWND) (message wparam lparam : Z)
  : M unit :=
  match via with
  | ChildView =>
      if decide (message = WM_POINTERDOWN) then
        LogToFile "FlutterViewSubclassProc: WM_POINTERDOWN received";;
        w ← get g_flutter_window;
        if w : bool then ProcessPointerMessage env hwnd message wparam lparam else mret ()
      else if decide (message = WM_POINTERUP) then
        LogToFile "FlutterViewSubclassProc: WM_POINTERUP received";;
        w ← get g_flutter_window;
        if w : bool then ProcessPointerMessage env hwnd message wparam lparam else mret ()
      else if decide (message = WM_POINTERUPDATE) then
        w ← get g_flutter_window;
        if w : bool then ProcessPointerMessage env hwnd message wparam lparam else mret ()
      else if decide (message = WM_POINTERENTER) then
        LogToFile "FlutterViewSubclassProc: WM_POINTERENTER received";;
        w ← get g_flutter_window;
        if w : bool then ProcessPointerMessage env hwnd message wparam lparam else mret ()
      else if decide (message = WM_POINTERLEAVE) then
        LogToFile "FlutterViewSubclassProc: WM_POINTERLEAVE received";;
        w ← get g_flutter_window;
        if w : bool then ProcessPointerMessage env hwnd message wparam lparam else mret ()
      else mret ()
  | TopLevel =>
      if decide (message = WM_POINTERDOWN ∨ message = WM_POINTERUP
                 ∨ message = WM_POINTERUPDATE ∨ message = WM_POINTERENTER) then
        HandlePointerMessage env message wparam lparam
      else if decide (message = WM_POINTERLEAVE) then
        let pointerId := GET_POINTERID_WPARAM wparam in
        cache ← get pointer_type_cache_;
        modify (set_pointer_type_cache_ (delete pointerId cache))
      else mret ()
  end.

(** ** Scenario data *)

Definition quiet_env : Env :=
  mkEnv (λ _, None) (λ _, None) 0 0 0 None 0.

Definition env_with (ty : option Z) (pen : option POINTER_PEN_INFO) : Env :=
  mkEnv (λ _, ty) (λ _, pen) 87 0 0 None 0.

(** A window that is fully set up on a system that has both entry points. *)
Definition ready_world : World :=
  mkWorld true (Some 1001) (Some 1002) true (Some 2001)
          true (Some "winote/pointer_type") ∅ (Some 2001) (Some 3001).

Definition top (k : PointerKind) (id : Z) (env : Env) : PointerMessage :=
  mkPointerMessage TopLevel k 3000 id 0 env.

Definition child (k : PointerKind) (id : Z) (env : Env) : PointerMessage :=
  mkPointerMessage ChildView k 3001 id 0 env.

(** The same system before the window is wired up: no channel yet. *)
Definition unwired_world : World := set_pointer_channel_ None ready_world.

(** A loader on a system whose user32 lacks both pointer entry points. *)
Definition old_loader : Loader :=
  mkLoader (λ name, if decide (name = "user32.dll") then Some 7001 else None) (λ _ _, None).

(** A loader on a system that has both. *)
Definition new_loader : Loader :=
  mkLoader (λ name, if decide (name = "user32.dll") then Some 7001 else None)
           (λ _ name, if decide (name = "GetPointerType") then Some 1001
                      else if decide (name = "GetPointerPenInfo") then Some 1002
                      else None).

Definition pen_600 : POINTER_PEN_INFO := mkPenInfo 0 1 600 0 0 0.

(** ** Further readings of the output and of the state *)

Definition pen_queries (o : list Effect) : list Z :=
  omap (λ e, match e with GetPointerPenInfo_call i => Some i | _ => None end) o.

Definition font_reloads (o : list Effect) : list Effect :=
  omap (λ e, match e with ReloadSystemFonts => Some e | _ => None end) o.

Definition subclass_installs (o : list Effect) : list HWND :=
  omap (λ e, match e with SetWindowLongPtr_WNDPROC h => Some h | _ => None end) o.


(** Every key of the table is a 16-bit identifier and every value a 32-bit
    type code. *)
Definition cache_in_range (c : gmap Z Z) : Prop :=
  ∀ k v, c !! k = Some v → 0 ≤ k < 2 ^ 16 ∧ 0 ≤ v < 2 ^ 32.

(** The channel, if there is one, is the one [OnCreate] makes. *)
Definition channel_is_winote (s : World) : Prop :=
  pointer_channel_ s = None ∨ pointer_channel_ s = Some "winote/pointer_type".

(** A message that cannot change the entry of [id]: it carries another
    identifier, or it is no leave and its device-type query fails. *)
Definition leaves_entry (id : Z) (d : PointerMessage) : Prop :=
  pointer_id d ≠ id ∨ (kind d ≠ Leave ∧ os_GetPointerType (pm_env d) id = None).

(** ** The log file behind [LogToFile] *)

(** The statics [g_log_file] and [g_log_initialized], what [InitLogFile] does
    with them, and the line [LogToFile] writes.  The file system, the
    environment block and the clock answer from outside. *)
Module LogFile.

(** An open [std::ofstream]: where it writes, the lines written so far, and
    whether the stream is still good. *)
Record Stream := mkStream {
  path : string;
  lines : list string;
  good : bool
}.

Record State := mkState {
  g_log_initialized : bool;
  g_log_file : option Stream          (* [None]: not open *)
}.

Definition initial : State := mkState false None.

(** What the platform answers during one call: the environment variable,
    whether a path can be opened for writing, whether the write goes through,
    the broken-down local time as [localtime_s] fills it, and the clock in
    milliseconds since the epoch. *)
Record Env := mkEnv {
  USERPROFILE : option string;
  can_open : string → bool;
  can_write : bool;
  tm_hour : Z;
  tm_min : Z;
  tm_sec : Z;
  now_ms : Z
}.

Definition InitLogFile (e : Env) (st : State) : State :=
  if g_log_initialized st then st else
  let st := mkState true (g_log_file st) in
  (* Log to user's desktop for easy access *)
  match USERPROFILE e with
  | Some userProfile =>
      let logPath := userProfile +:+ "\Desktop\winote_native_log.txt" in
      match g_log_file st with
      | Some f => mkState true (Some (mkStream (path f) (lines f) false))
      | None =>
          if can_open e logPath
          then mkState true (Some (mkStream logPath [] true))
          else st
      end
  | None => st
  end.

Fixpoint zeros (n : nat) : string :=
  match n with
  | O => ""
  | S n => "0" +:+ zeros n
  end.

(** [std::setfill('0') << std::setw(width)] in front of a number. *)
Definition setw (width : nat) (digits : string) : string :=
  zeros (width - String.length digits) +:+ digits.

(** [std::put_time(&tm_buf, "%H:%M:%S")], for the fields of a valid time. *)
Definition put_time (e : Env) : string :=
  setw 2 (pretty (tm_hour e)) +:+ ":" +:+ setw 2 (pretty (tm_min e))
  +:+ ":" +:+ setw 2 (pretty (tm_sec e)).

Definition line (e : Env) (message : string) : string :=
  let ms := Z.rem (now_ms e) 1000 in
  "[" +:+ put_time e +:+ "." +:+ setw 3 (pretty ms) +:+ "] " +:+ message.

Definition LogToFile (e : Env) (message : string) (st : State) : State :=
  let st := InitLogFile e st in
  match g_log_file st with
  | Some f =>
      if good f then
        if can_write e
        then mkState (g_log_initialized st)
               (Some (mkStream (path f) (lines f ++ [line e message]) true))
        else mkState (g_log_initialized st) (Some (mkStream (path f) (lines f) false))
      else st
  | None => st
  end.

(** Calls in the order they are made. *)
Definition log_all (calls : list (Env * string)) (st : State) : State :=
  foldl (λ st c, LogToFile c.1 c.2 st) st calls.


Definition noon : Env := mkEnv (Some "C:\Users\me") (λ _, true) true 12 5 9 1700000000042.

End LogFile.

(** ** Scenarios of the specification *)

Example scenario_pen_down :
  let r := run [top Down 5 (env_with (Some PT_PEN) (Some pen_600))] ready_world in
  forwarded (out r) = [mkEvent 5 PT_PEN 600]
  ∧ channel_messages (out r)
    = [mkMethodCall "winote/pointer_type" "onPointerTypeDetected" (payload (mkEvent 5 PT_PEN 600))]
  ∧ pointer_type_cache_ (world r) !! 5 = Some PT_PEN.
Proof. vm_compute. done. Qed.

Example scenario_mouse_down :
  forwarded (out (run [top Down 7 (env_with (Some PT_MOUSE) None)] ready_world))
  = [mkEvent 7 PT_MOUSE 0].
Proof. vm_compute. done. Qed.

Example scenario_touch_contact :
  let touch := env_with (Some PT_TOUCH) None in
  forwarded (out (run [child Down 9 touch; child Update 9 touch; child Update 9 touch;
                       child Update 9 touch; child Up 9 touch] ready_world))
  = [mkEvent 9 PT_TOUCH 0].
Proof. vm_compute. done. Qed.

Example scenario_query_fails :
  let r := run [top Down 3 (env_with None None)] ready_world in
  forwarded (out r) = [] ∧ pointer_type_cache_ (world r) !! 3 = None
  ∧ logged (out r) = ["HandlePointerMessage: GetPointerType failed for pointer 3, error: 87"].
Proof. vm_compute. done. Qed.

Example scenario_leave_without_contact :
  world (run [top Leave 3 quiet_env] ready_world) = ready_world.
Proof. vm_compute. done. Qed.

Example scenario_identifier_reused :
  forwarded (out (run [top Down 4 (env_with (Some PT_PEN) (Some pen_600));
                       top Leave 4 quiet_env;
                       top Down 4 (env_with (Some PT_TOUCH) None)] ready_world))
  = [mkEvent 4 PT_PEN 600; mkEvent 4 PT_TOUCH 0].
Proof. vm_compute. done. Qed.

Example scenario_probe_on_old_system :
  let r := FlutterWindow_ctor old_loader initial_world in
  capabilities (world r) = (true, None, None)
  ∧ logged (out r) = ["InitializePointerApi: Starting...";
                      "InitializePointerApi: Pointer API not available"].
Proof. vm_compute. done. Qed.

Example scenario_whole_process :
  let r := process (λ _, "") (λ _, "")
             [Construct new_loader;
              Create (mkCreateEnv true true true (Some 3001) (Some 2001) 0);
              Window ChildView (env_with (Some PT_PEN) (Some pen_600)) 3001 WM_POINTERDOWN 5 0;
              Window TopLevel quiet_env 3000 WM_POINTERLEAVE 5 0]
             initial_world in
  world r = ready_world
  ∧ channel_messages (out r)
    = [mkMethodCall "winote/pointer_type" "onPointerTypeDetected" (payload (mkEvent 5 PT_PEN 600))].
Proof. vm_compute. done. Qed.

(** * Properties *)

(** ** Unfolding the monad *)

Ltac mstep :=
  cbv beta iota zeta delta
      [mbind M_bind mret M_ret get modify emit extern LogToFile val world out];
  cbn [val world out app andb
       g_pointer_api_initialized g_GetPointerType g_GetPointerPenInfo g_flutter_window
       g_original_flutter_view_proc flutter_controller_ pointer_channel_
       pointer_type_cache_ original_flutter_view_proc_ flutter_view_hwnd_
       set_g_pointer_api_initialized set_g_GetPointerType set_g_GetPointerPenInfo
       set_g_flutter_window set_g_original_flutter_view_proc set_flutter_controller_
       set_pointer_channel_ set_pointer_type_cache_ set_original_flutter_view_proc_
       set_flutter_view_hwnd_].

Lemma SendPointerTypeToDart_eq (pointerId pointerType pressure : Z) (s : World) :
  SendPointerTypeToDart pointerId pointerType pressure s
  = mkResult () s
      (SendPointerTypeToDart_call pointerId pointerType pressure ::
       match pointer_channel_ s with
       | None => [LogLine "SendPointerTypeToDart: pointer_channel_ is null!"]
       | Some channel =>
           [LogLine ("SendPointerTypeToDart: Sending pointer " +:+ pretty pointerId
                     +:+ ", type " +:+ pretty pointerType
                     +:+ ", pressure " +:+ pretty pressure +:+ " to Dart");
            InvokeMethod channel "onPointerTypeDetected"
              (payload (mkEvent pointerId pointerType pressure))]
       end).
Proof.
  unfold SendPointerTypeToDart. mstep.
  destruct (pointer_channel_ s); reflexivity.
Qed.

Ltac mcases :=
  repeat match goal with
         | |- context [match ?x with _ => _ end] => destruct x eqn:?
         end.

(** The classifier, as one equation: the state it leaves and the calls it makes. *)
Lemma HandlePointerMessage_eq env message wparam lparam s :
  HandlePointerMessage env message wparam lparam s
  = let pointerId := GET_POINTERID_WPARAM wparam in
    match g_GetPointerType s with
    | None => mkResult () s [LogLine "HandlePointerMessage: g_GetPointerType is null!"]
    | Some _ =>
        match os_GetPointerType env pointerId with
        | None =>
            mkResult () s
              [GetPointerType_call pointerId;
               LogLine ("HandlePointerMessage: GetPointerType failed for pointer "
                        +:+ pretty pointerId +:+ ", error: " +:+ pretty (os_GetLastError env))]
        | Some pointerType =>
            let pointerType := UINT32 pointerType in
            let pressure := pen_pressure env s pointerId pointerType in
            let s' := set_pointer_type_cache_
                        (<[pointerId := pointerType]> (pointer_type_cache_ s)) s in
            mkResult () s'
              (GetPointerType_call pointerId
               :: (if bool_decide (pointerType = PT_PEN)
                      && bool_decide (is_Some (g_GetPointerPenInfo s))
                   then [GetPointerPenInfo_call pointerId] else [])
               ++ (if decide (message = WM_POINTERDOWN)
                   then LogLine ("HandlePointerMessage: Pointer " +:+ pretty pointerId
                                 +:+ " type: " +:+ typeStr pointerType
                                 +:+ " (value: " +:+ pretty pointerType
                                 +:+ "), pressure: " +:+ pretty pressure)
                        :: out (SendPointerTypeToDart pointerId pointerType pressure s')
                   else []))
        end
    end.
Proof.
  unfold HandlePointerMessage, pen_pressure. mstep.
  destruct (g_GetPointerType s); [|reflexivity].
  destruct (os_GetPointerType env _); [|reflexivity].
  mstep. mcases; mstep; rewrite ?SendPointerTypeToDart_eq; reflexivity.
Qed.

Ltac hpm_cases env s wparam :=
  rewrite HandlePointerMessage_eq; unfold classification, pen_pressure;
  cbn zeta;
  destruct (g_GetPointerType s);
  [destruct (os_GetPointerType env (GET_POINTERID_WPARAM wparam))|];
  rewrite ?SendPointerTypeToDart_eq;
  cbn [val world out pointer_channel_ set_pointer_type_cache_];
  try destruct (pointer_channel_ s);
  mcases; try reflexivity.

Lemma HandlePointerMessage_world env message wparam lparam s :
  world (HandlePointerMessage env message wparam lparam s)
  = match g_GetPointerType s, os_GetPointerType env (GET_POINTERID_WPARAM wparam) with
    | Some _, Some pointerType =>
        set_pointer_type_cache_
          (<[GET_POINTERID_WPARAM wparam := UINT32 pointerType]> (pointer_type_cache_ s)) s
    | _, _ => s
    end.
Proof. hpm_cases env s wparam. Qed.

Lemma HandlePointerMessage_forwarded env message wparam lparam s :
  forwarded (out (HandlePointerMessage env message wparam lparam s))
  = option_list (classification env s message wparam).
Proof. hpm_cases env s wparam. Qed.

Lemma set_pointer_type_cache__id s : set_pointer_type_cache_ (pointer_type_cache_ s) s = s.
Proof. destruct s; reflexivity. Qed.

Lemma set_pointer_type_cache__twice c c' s :
  set_pointer_type_cache_ c (set_pointer_type_cache_ c' s) = set_pointer_type_cache_ c s.
Proof. reflexivity. Qed.

Lemma forwarded_app o1 o2 : forwarded (o1 ++ o2) = forwarded o1 ++ forwarded o2.
Proof. apply omap_app. Qed.

Lemma channel_messages_app o1 o2 :
  channel_messages (o1 ++ o2) = channel_messages o1 ++ channel_messages o2.
Proof. apply omap_app. Qed.

Lemma type_queries_app o1 o2 : type_queries (o1 ++ o2) = type_queries o1 ++ type_queries o2.
Proof. apply omap_app. Qed.

Lemma logged_app o1 o2 : logged (o1 ++ o2) = logged o1 ++ logged o2.
Proof. apply omap_app. Qed.

Lemma next_handlers_app o1 o2 : next_handlers (o1 ++ o2) = next_handlers o1 ++ next_handlers o2.
Proof. apply omap_app. Qed.

Lemma loader_calls_app o1 o2 : loader_calls (o1 ++ o2) = loader_calls o1 ++ loader_calls o2.
Proof. apply omap_app. Qed.

(** The classifier only ever touches the contact table. *)
Lemma HandlePointerMessage_frame env message wparam lparam s :
  world (HandlePointerMessage env message wparam lparam s)
  = set_pointer_type_cache_
      (pointer_type_cache_ (world (HandlePointerMessage env message wparam lparam s))) s.
Proof.
  rewrite HandlePointerMessage_world.
  destruct (g_GetPointerType s), (os_GetPointerType env (GET_POINTERID_WPARAM wparam));
    cbn [pointer_type_cache_ set_pointer_type_cache_];
    rewrite ?set_pointer_type_cache__id; reflexivity.
Qed.

Lemma HandlePointerMessage_channel_messages env message wparam lparam s :
  channel_messages (out (HandlePointerMessage env message wparam lparam s))
  = match pointer_channel_ s with
    | Some channel =>
        (λ ev, mkMethodCall channel "onPointerTypeDetected" (payload ev))
          <$> option_list (classification env s message wparam)
    | None => []
    end.
Proof. hpm_cases env s wparam. Qed.

Lemma HandlePointerMessage_type_queries env message wparam lparam s :
  type_queries (out (HandlePointerMessage env message wparam lparam s))
  = match g_GetPointerType s with Some _ => [GET_POINTERID_WPARAM wparam] | None => [] end.
Proof. hpm_cases env s wparam. Qed.

Lemma HandlePointerMessage_next_handlers env message wparam lparam s :
  next_handlers (out (HandlePointerMessage env message wparam lparam s)) = [].
Proof. hpm_cases env s wparam. Qed.

Lemma HandlePointerMessage_controller env message wparam lparam s :
  flutter_controller_ (world (HandlePointerMessage env message wparam lparam s))
  = flutter_controller_ s.
Proof. rewrite HandlePointerMessage_frame. reflexivity. Qed.

Lemma HandlePointerMessage_original_proc env message wparam lparam s :
  g_original_flutter_view_proc (world (HandlePointerMessage env message wparam lparam s))
  = g_original_flutter_view_proc s.
Proof. rewrite HandlePointerMessage_frame. reflexivity. Qed.

(** ** One call of a window procedure *)

Ltac msg_cases message :=
  destruct (decide (message = WM_POINTERDOWN)) as [->|?];
  [|destruct (decide (message = WM_POINTERUP)) as [->|?];
    [|destruct (decide (message = WM_POINTERUPDATE)) as [->|?];
      [|destruct (decide (message = WM_POINTERENTER)) as [->|?];
        [|destruct (decide (message = WM_POINTERLEAVE)) as [->|?];
          [|destruct (decide (message = WM_FONTCHANGE)) as [->|?]]]]]].

Ltac decide_all :=
  repeat match goal with
         | |- context [decide ?P] =>
             destruct (decide P) as [?|?];
             try (exfalso; intuition congruence); try discriminate
         | |- context [bool_decide ?P] =>
             destruct (bool_decide_reflect P) as [?|?];
             try (exfalso; intuition congruence); try discriminate
         end.

(** Splits a call of either procedure into its control-flow cases, leaving
    the classifier folded. *)
Ltac flow_cases env s :=
  repeat (mstep;
          rewrite ?HandlePointerMessage_controller, ?HandlePointerMessage_original_proc;
          match goal with
          | |- context [if g_flutter_window s then _ else _] =>
              destruct (g_flutter_window s) eqn:?
          | |- context [if flutter_controller_ s then _ else _] =>
              destruct (flutter_controller_ s) eqn:?
          | |- context [match ans_HandleTopLevelWindowProc env with _ => _ end] =>
              destruct (ans_HandleTopLevelWindowProc env) eqn:?
          | |- context [match g_original_flutter_view_proc s with _ => _ end] =>
              destruct (g_original_flutter_view_proc s) eqn:?
          end);
  mstep.

Ltac dispatch_cases via env message s :=
  unfold dispatch, MessageHandler, FlutterViewSubclassProc, ProcessPointerMessage,
    cache_after, routed, subclass_log, passed_on, outcome_of;
  destruct via; msg_cases message; mstep; decide_all; cbn [andb];
  flow_cases env s.

(** Either procedure, as one equation: its own handling, framed by what the
    subclass procedure logs and by the hand-over to the next handler. *)
Lemma dispatch_eq via env hwnd message wparam lparam s :
  dispatch via env hwnd message wparam lparam s
  = mkResult (outcome_of via env s message)
      (set_pointer_type_cache_ (cache_after via env s message wparam) s)
      ((match via with ChildView => subclass_log message | TopLevel => [] end)
       ++ (if routed via s message
           then out (HandlePointerMessage env message wparam lparam s) else [])
       ++ passed_on via env s hwnd message wparam lparam).
Proof.
  dispatch_cases via env message s.
  all: rewrite ?app_nil_r; try rewrite (HandlePointerMessage_frame env _ wparam lparam s) at 1.
  all: rewrite ?HandlePointerMessage_world, ?set_pointer_type_cache__id; try reflexivity.
  all: destruct (g_GetPointerType s), (os_GetPointerType env (GET_POINTERID_WPARAM wparam));
    cbn [pointer_type_cache_ set_pointer_type_cache_];
    rewrite ?set_pointer_type_cache__id; reflexivity.
Qed.

Lemma subclass_log_logged_only message :
  forwarded (subclass_log message) = [] ∧ channel_messages (subclass_log message) = []
  ∧ type_queries (subclass_log message) = [] ∧ next_handlers (subclass_log message) = []
  ∧ loader_calls (subclass_log message) = [].
Proof. unfold subclass_log. repeat case_decide; done. Qed.

Lemma passed_on_silent via env s hwnd message wparam lparam :
  forwarded (passed_on via env s hwnd message wparam lparam) = []
  ∧ channel_messages (passed_on via env s hwnd message wparam lparam) = []
  ∧ type_queries (passed_on via env s hwnd message wparam lparam) = []
  ∧ logged (passed_on via env s hwnd message wparam lparam) = []
  ∧ loader_calls (passed_on via env s hwnd message wparam lparam) = [].
Proof.
  unfold passed_on.
  destruct via, (g_original_flutter_view_proc s), (flutter_controller_ s),
    (ans_HandleTopLevelWindowProc env); repeat case_decide; done.
Qed.

Lemma dispatch_world via env hwnd message wparam lparam s :
  world (dispatch via env hwnd message wparam lparam s)
  = set_pointer_type_cache_ (cache_after via env s message wparam) s.
Proof. rewrite dispatch_eq. reflexivity. Qed.

Lemma dispatch_forwarded via env hwnd message wparam lparam s :
  forwarded (out (dispatch via env hwnd message wparam lparam s))
  = if routed via s message then option_list (classification env s message wparam) else [].
Proof.
  rewrite dispatch_eq. cbn [out]. rewrite !forwarded_app.
  rewrite (proj1 (passed_on_silent _ _ _ _ _ _ _)), app_nil_r.
  replace (forwarded match via with ChildView => subclass_log message | TopLevel => [] end)
    with (@nil ClassificationEvent)
    by (destruct via; [done | symmetry; apply subclass_log_logged_only]).
  destruct (routed via s message); [apply HandlePointerMessage_forwarded | done].
Qed.

Lemma dispatch_channel_messages via env hwnd message wparam lparam s :
  channel_messages (out (dispatch via env hwnd message wparam lparam s))
  = match pointer_channel_ s with
    | Some channel =>
        (λ ev, mkMethodCall channel "onPointerTypeDetected" (payload ev))
          <$> forwarded (out (dispatch via env hwnd message wparam lparam s))
    | None => []
    end.
Proof.
  rewrite dispatch_forwarded, dispatch_eq. cbn [out]. rewrite !channel_messages_app.
  rewrite (proj1 (proj2 (passed_on_silent _ _ _ _ _ _ _))), app_nil_r.
  replace (channel_messages match via with ChildView => subclass_log message | TopLevel => [] end)
    with (@nil MethodCall)
    by (destruct via; [done | symmetry; apply subclass_log_logged_only]).
  destruct (routed via s message); cbn [app].
  - apply HandlePointerMessage_channel_messages.
  - destruct (pointer_channel_ s); done.
Qed.

Lemma dispatch_type_queries via env hwnd message wparam lparam s :
  type_queries (out (dispatch via env hwnd message wparam lparam s))
  = if routed via s message
    then match g_GetPointerType s with Some _ => [GET_POINTERID_WPARAM wparam] | None => [] end
    else [].
Proof.
  rewrite dispatch_eq. cbn [out]. rewrite !type_queries_app.
  rewrite (proj1 (proj2 (proj2 (passed_on_silent _ _ _ _ _ _ _)))), app_nil_r.
  replace (type_queries match via with ChildView => subclass_log message | TopLevel => [] end)
    with (@nil Z)
    by (destruct via; [done | symmetry; apply subclass_log_logged_only]).
  destruct (routed via s message); [apply HandlePointerMessage_type_queries | done].
Qed.

Lemma dispatch_next_handlers via env hwnd message wparam lparam s :
  next_handlers (out (dispatch via env hwnd message wparam lparam s))
  = next_handlers (passed_on via env s hwnd message wparam lparam).
Proof.
  rewrite dispatch_eq. cbn [out]. rewrite !next_handlers_app.
  replace (next_handlers match via with ChildView => subclass_log message | TopLevel => [] end)
    with (@nil Effect)
    by (destruct via; [done | symmetry; apply subclass_log_logged_only]).
  destruct (routed via s message); [rewrite HandlePointerMessage_next_handlers|]; done.
Qed.

Lemma routed_message_of s via k :
  routed via s (message_of k) = true ↔ reaches_classifier s via k.
Proof.
  unfold routed, reaches_classifier.
  destruct via, k; cbn [message_of]; rewrite ?andb_true_iff, ?bool_decide_eq_true;
    try (destruct (g_flutter_window s)); cbv; intuition congruence.
Qed.

Lemma message_of_inj k1 k2 : message_of k1 = message_of k2 → k1 = k2.
Proof. destruct k1, k2; cbv; congruence. Qed.

Lemma message_of_down k : message_of k = WM_POINTERDOWN ↔ k = Down.
Proof. split; [apply (message_of_inj k Down) | intros ->; done]. Qed.

Lemma message_of_not_fontchange k : message_of k ≠ WM_FONTCHANGE.
Proof. destruct k; cbv; congruence. Qed.

(** Nothing but the contact table varies while messages are handled, and
    neither routing nor classification reads the table. *)
Lemma routed_set_cache via c s message :
  routed via (set_pointer_type_cache_ c s) message = routed via s message.
Proof. reflexivity. Qed.

Lemma classification_set_cache env c s message wparam :
  classification env (set_pointer_type_cache_ c s) message wparam
  = classification env s message wparam.
Proof. reflexivity. Qed.

Lemma deliver_world d s :
  world (deliver d s)
  = set_pointer_type_cache_
      (cache_after (via d) (pm_env d) s (message_of (kind d)) (pm_wparam d)) s.
Proof. apply dispatch_world. Qed.

Lemma unit_eta (u : unit) : u = ().
Proof. by destruct u. Qed.

Lemma run_cons d ds s :
  run (d :: ds) s
  = mkResult () (world (run ds (world (deliver d s))))
      (out (deliver d s) ++ out (run ds (world (deliver d s)))).
Proof.
  cbn [run]. mstep. f_equal. apply unit_eta.
Qed.

Lemma run_frame ds s :
  world (run ds s) = set_pointer_type_cache_ (pointer_type_cache_ (world (run ds s))) s.
Proof.
  revert s. induction ds as [|d ds IH]; intros s.
  - cbn. symmetry. apply set_pointer_type_cache__id.
  - rewrite run_cons. cbn [world]. rewrite IH at 1. rewrite deliver_world. reflexivity.
Qed.

Lemma run_app ds1 ds2 s :
  run (ds1 ++ ds2) s
  = mkResult () (world (run ds2 (world (run ds1 s))))
      (out (run ds1 s) ++ out (run ds2 (world (run ds1 s)))).
Proof.
  revert s. induction ds1 as [|d ds1 IH]; intros s.
  - cbn [app run]. mstep.
    change (run ds2 s) with (mkResult (val (run ds2 s)) (world (run ds2 s)) (out (run ds2 s))) at 1.
    rewrite (unit_eta (val (run ds2 s))). reflexivity.
  - cbn [app]. rewrite !run_cons, IH. cbn [world out]. rewrite app_assoc. reflexivity.
Qed.

(** The whole output of handling a message ignores the contact table. *)
Lemma HandlePointerMessage_out_set_cache env message wparam lparam c s :
  out (HandlePointerMessage env message wparam lparam (set_pointer_type_cache_ c s))
  = out (HandlePointerMessage env message wparam lparam s).
Proof.
  rewrite !HandlePointerMessage_eq. cbn zeta.
  cbn [g_GetPointerType g_GetPointerPenInfo set_pointer_type_cache_].
  destruct (g_GetPointerType s); [|reflexivity].
  destruct (os_GetPointerType env _); [|reflexivity].
  cbn [out]. rewrite !SendPointerTypeToDart_eq. reflexivity.
Qed.

Lemma dispatch_out_set_cache via env hwnd message wparam lparam c s :
  out (dispatch via env hwnd message wparam lparam (set_pointer_type_cache_ c s))
  = out (dispatch via env hwnd message wparam lparam s).
Proof.
  rewrite !dispatch_eq. cbn [out]. rewrite routed_set_cache.
  rewrite HandlePointerMessage_out_set_cache. reflexivity.
Qed.

Lemma run_out_set_cache ds c s :
  out (run ds (set_pointer_type_cache_ c s)) = out (run ds s).
Proof.
  revert c s. induction ds as [|d ds IH]; intros c s; [reflexivity|].
  rewrite !run_cons. cbn [out]. unfold deliver at 1 3.
  rewrite dispatch_out_set_cache. f_equal.
  rewrite !deliver_world, set_pointer_type_cache__twice, !IH. reflexivity.
Qed.

Lemma UINT32_range z : 0 ≤ UINT32 z < 2 ^ 32.
Proof. unfold UINT32. apply Z.mod_pos_bound. lia. Qed.

Lemma static_cast_int_zero z : 0 ≤ z < 2 ^ 32 → static_cast_int z = 0 ↔ z = 0.
Proof.
  intros Hz. unfold static_cast_int. split; [|intros ->; reflexivity].
  intros H.
  destruct (decide (z < 2 ^ 31)).
  - rewrite Z.mod_small in H by lia. lia.
  - assert ((z + 2 ^ 31) mod 2 ^ 32 = z - 2 ^ 31) as E.
    { symmetry. apply (Z.mod_unique _ _ 1); lia. }
    lia.
Qed.

Lemma static_cast_int_small z : 0 ≤ z < 2 ^ 31 → static_cast_int z = z.
Proof. intros Hz. unfold static_cast_int. rewrite Z.mod_small by lia. lia. Qed.

Lemma pen_pressure_range env s pointerId pointerType :
  0 ≤ pen_pressure env s pointerId pointerType < 2 ^ 32.
Proof.
  unfold pen_pressure.
  destruct (_ && _); [destruct (os_GetPointerPenInfo env pointerId)|];
    try apply UINT32_range; lia.
Qed.

(** The events of one call, as membership. *)
Lemma dispatch_forwarded_elem via env hwnd message wparam lparam s ev :
  ev ∈ forwarded (out (dispatch via env hwnd message wparam lparam s))
  ↔ routed via s message = true ∧ classification env s message wparam = Some ev.
Proof.
  rewrite dispatch_forwarded.
  destruct (routed via s message).
  - destruct (classification env s message wparam); simpl.
    + rewrite list_elem_of_singleton. split; [intros ->; done | intros [_ [= <-]]; done].
    + rewrite elem_of_nil. split; [done | intros [_ ?]; done].
  - rewrite elem_of_nil. split; [done | intros [? _]; done].
Qed.

Lemma classification_Some env s message wparam ev :
  classification env s message wparam = Some ev
  ↔ message = WM_POINTERDOWN
    ∧ is_Some (g_GetPointerType s)
    ∧ ∃ pointerType,
        os_GetPointerType env (GET_POINTERID_WPARAM wparam) = Some pointerType
        ∧ ev = mkEvent (GET_POINTERID_WPARAM wparam) (UINT32 pointerType)
                 (pen_pressure env s (GET_POINTERID_WPARAM wparam) (UINT32 pointerType)).
Proof.
  unfold classification.
  destruct (g_GetPointerType s) as [f|]; [|split; [done|intros (_ & [? ?] & _); done]].
  destruct (os_GetPointerType env _) as [ty|]; [|split; [done|intros (_ & _ & ? & ? & _); done]].
  case_decide; split.
  - intros [= <-]. eauto 10.
  - intros (_ & _ & ? & [= <-] & ->). done.
  - done.
  - intros (? & _). done.
Qed.

(** C4: in every produced event the pressure is nonzero only for a pen
    whose pen query was available and succeeded; in every other case the
    pressure is exactly 0, in the event and in the payload on the channel. *)
Theorem C4_pressure_only_for_pen via env hwnd message wparam lparam s ev :
  ev ∈ forwarded (out (dispatch via env hwnd message wparam lparam s)) →
  (ev_pressure ev ≠ 0 →
     ev_pointerType ev = PT_PEN
     ∧ is_Some (g_GetPointerPenInfo s)
     ∧ ∃ penInfo, os_GetPointerPenInfo env (ev_pointerId ev) = Some penInfo
                  ∧ ev_pressure ev = UINT32 (pressure penInfo))
  ∧ (ev_pointerType ev ≠ PT_PEN ∨ g_GetPointerPenInfo s = None
     ∨ os_GetPointerPenInfo env (ev_pointerId ev) = None → ev_pressure ev = 0)
  ∧ (∀ m, m ∈ channel_messages (out (dispatch via env hwnd message wparam lparam s)) →
       mc_args m !! EncodableString "pressure"
       = Some (EncodableInt (static_cast_int (ev_pressure ev)))
       ∧ (static_cast_int (ev_pressure ev) = 0 ↔ ev_pressure ev = 0)).
Proof.
  intros Hev.
  pose proof Hev as Hin.
  apply dispatch_forwarded_elem in Hev as [Hr Hc].
  apply classification_Some in Hc as (-> & Hg & ty & Hty & ->).
  cbn [ev_pressure ev_pointerType ev_pointerId].
  split; [|split].
  - unfold pen_pressure.
    destruct (bool_decide_reflect (UINT32 ty = PT_PEN)) as [Hpen|Hpen]; [|done].
    destruct (bool_decide_reflect (is_Some (g_GetPointerPenInfo s))) as [Hgp|Hgp]; [|done].
    cbn [andb]. destruct (os_GetPointerPenInfo env _) as [penInfo|]; [|done].
    intros _. eauto.
  - unfold pen_pressure. intros [H|[H|H]].
    + rewrite bool_decide_eq_false_2 by done. done.
    + rewrite H, (bool_decide_eq_false_2 (is_Some None)) by (intros [? ?]; done).
      rewrite andb_false_r. done.
    + rewrite H. destruct (_ && _); done.
  - intros m Hm. rewrite dispatch_channel_messages in Hm.
    rewrite dispatch_forwarded, Hr in Hm.
    assert (classification env s WM_POINTERDOWN wparam
            = Some (mkEvent (GET_POINTERID_WPARAM wparam) (UINT32 ty)
                      (pen_pressure env s (GET_POINTERID_WPARAM wparam) (UINT32 ty)))) as Hc.
    { apply classification_Some. eauto 10. }
    rewrite Hc in Hm. destruct (pointer_channel_ s); [|by apply elem_of_nil in Hm].
    cbn in Hm. apply list_elem_of_singleton in Hm as ->.
    split; [|apply static_cast_int_zero, pen_pressure_range].
    cbn [mc_args]. unfold payload. cbn [ev_pressure]. apply lookup_insert_eq.
Qed.

Lemma dispatch_forwarded_length via env hwnd message wparam lparam s :
  (length (forwarded (out (dispatch via env hwnd message wparam lparam s))) ≤ 1)%nat.
Proof.
  rewrite dispatch_forwarded.
  destruct (routed via s message); [|cbn; lia].
  destruct (classification env s message wparam); cbn; lia.
Qed.

Lemma dispatch_channel_messages_length via env hwnd message wparam lparam s :
  (length (channel_messages (out (dispatch via env hwnd message wparam lparam s)))
   ≤ length (forwarded (out (dispatch via env hwnd message wparam lparam s))))%nat.
Proof.
  rewrite dispatch_channel_messages.
  destruct (pointer_channel_ s); [rewrite length_fmap|cbn]; lia.
Qed.

Lemma dispatch_not_down via env hwnd message wparam lparam s :
  message ≠ WM_POINTERDOWN →
  forwarded (out (dispatch via env hwnd message wparam lparam s)) = [].
Proof.
  intros Hm. rewrite dispatch_forwarded.
  destruct (routed via s message); [|done].
  unfold classification.
  destruct (g_GetPointerType s); [|done].
  destruct (os_GetPointerType env _); [|done].
  rewrite decide_False by done. done.
Qed.

(** C4 at a pen that presses with 600. *)
Lemma C4_witness :
  let env := env_with (Some PT_PEN) (Some pen_600) in
  let r := dispatch TopLevel env 3000 WM_POINTERDOWN 5 0 ready_world in
  mkEvent 5 PT_PEN 600 ∈ forwarded (out r)
  ∧ (600 ≠ 0 →
       PT_PEN = PT_PEN ∧ is_Some (g_GetPointerPenInfo ready_world)
       ∧ ∃ penInfo, os_GetPointerPenInfo env 5 = Some penInfo ∧ 600 = UINT32 (pressure penInfo)).
Proof.
  assert (mkEvent 5 PT_PEN 600
          ∈ forwarded (out (dispatch TopLevel
                              (env_with (Some PT_PEN) (Some pen_600))
                              3000 WM_POINTERDOWN 5 0 ready_world))) as Hev
    by (vm_compute; left).
  split; [exact Hev|].
  exact (proj1 (C4_pressure_only_for_pen TopLevel
                  (env_with (Some PT_PEN) (Some pen_600))
                  3000 WM_POINTERDOWN 5 0 ready_world (mkEvent 5 PT_PEN 600) Hev)).
Defined.

(** C5: one message produces at most one event, and only a pointer-down
    produces one; update, enter, up (and leave) at most change the contact
    table. *)
Theorem C5_at_most_one_event_per_down via env hwnd message wparam lparam s :
  let r := dispatch via env hwnd message wparam lparam s in
  (length (forwarded (out r)) ≤ 1)%nat
  ∧ (length (channel_messages (out r)) ≤ 1)%nat
  ∧ (message ≠ WM_POINTERDOWN →
       forwarded (out r) = [] ∧ channel_messages (out r) = []
       ∧ ∃ cache, world r = set_pointer_type_cache_ cache s).
Proof.
  cbn zeta. split; [|split].
  - apply dispatch_forwarded_length.
  - etrans; [apply dispatch_channel_messages_length | apply dispatch_forwarded_length].
  - intros Hm. split; [|split].
    + by apply dispatch_not_down.
    + rewrite dispatch_channel_messages, dispatch_not_down by done.
      destruct (pointer_channel_ s); done.
    + eexists. apply dispatch_world.
Qed.

(** C5 at a pointer-update of a pen on the subclass path. *)
Lemma C5_witness :
  let r := dispatch ChildView (env_with (Some PT_PEN) (Some pen_600))
             3001 WM_POINTERUPDATE 5 0 ready_world in
  WM_POINTERUPDATE ≠ WM_POINTERDOWN
  ∧ forwarded (out r) = [] ∧ channel_messages (out r) = []
  ∧ ∃ cache, world r = set_pointer_type_cache_ cache ready_world.
Proof.
  assert (WM_POINTERUPDATE ≠ WM_POINTERDOWN) as H by (vm_compute; discriminate).
  split; [exact H|].
  exact (proj2 (proj2 (C5_at_most_one_event_per_down ChildView
           (env_with (Some PT_PEN) (Some pen_600))
           3001 WM_POINTERUPDATE 5 0 ready_world)) H).
Defined.

(** C6: what a message causes does not depend on the contact table; so a
    pointer-down that reuses an identifier, after any history and in
    particular after a leave for it, is handled as on a fresh table. *)
Theorem C6_events_independent_of_cache (ds : list PointerMessage) (cache : gmap Z Z)
    (s : World) :
  out (run ds (set_pointer_type_cache_ cache s)) = out (run ds s)
  ∧ forwarded (out (run ds (set_pointer_type_cache_ cache s))) = forwarded (out (run ds s))
  ∧ channel_messages (out (run ds (set_pointer_type_cache_ cache s)))
    = channel_messages (out (run ds s))
  ∧ ∀ (history : list PointerMessage) (leave down : PointerMessage),
      out (deliver down (world (run (history ++ [leave]) s))) = out (deliver down s).
Proof.
  rewrite run_out_set_cache. split; [done|]. split; [done|]. split; [done|].
  intros history lv down. rewrite run_frame. apply dispatch_out_set_cache.
Qed.

(** C8: when the device-type query is made for a message and fails, the
    failure is logged, nothing is forwarded, and the state, the contact
    table included, is exactly what it was. *)
Theorem C8_query_failure_is_local via env hwnd message wparam lparam s :
  let r := dispatch via env hwnd message wparam lparam s in
  let pointerId := GET_POINTERID_WPARAM wparam in
  pointerId ∈ type_queries (out r) →
  os_GetPointerType env pointerId = None →
  world r = s
  ∧ pointer_type_cache_ (world r) = pointer_type_cache_ s
  ∧ forwarded (out r) = []
  ∧ channel_messages (out r) = []
  ∧ ("HandlePointerMessage: GetPointerType failed for pointer "
     +:+ pretty pointerId +:+ ", error: " +:+ pretty (os_GetLastError env))
    ∈ logged (out r).
Proof.
  cbn zeta. intros Hq Hfail.
  rewrite dispatch_type_queries in Hq.
  destruct (routed via s message) eqn:Hr; [|by apply elem_of_nil in Hq].
  destruct (g_GetPointerType s) as [f|] eqn:Hg; [|by apply elem_of_nil in Hq].
  assert (world (dispatch via env hwnd message wparam lparam s) = s) as Hw.
  { rewrite dispatch_world. unfold cache_after. rewrite Hr, Hg, Hfail.
    apply set_pointer_type_cache__id. }
  assert (forwarded (out (dispatch via env hwnd message wparam lparam s)) = []) as Hf.
  { rewrite dispatch_forwarded, Hr. unfold classification. rewrite Hg, Hfail. done. }
  split; [done|]. split; [by rewrite Hw|]. split; [done|]. split.
  - rewrite dispatch_channel_messages, Hf. destruct (pointer_channel_ s); done.
  - rewrite dispatch_eq. cbn [out]. rewrite Hr, !logged_app.
    apply elem_of_app. right. apply elem_of_app. left.
    rewrite HandlePointerMessage_eq. cbn zeta. rewrite Hg, Hfail. cbn.
    apply list_elem_of_singleton. done.
Qed.

(** C8 at a pointer-down whose query fails with error 87. *)
Lemma C8_witness :
  let r := dispatch TopLevel (env_with None None) 3000 WM_POINTERDOWN 3 0 ready_world in
  3 ∈ type_queries (out r)
  ∧ os_GetPointerType (env_with None None) 3 = None
  ∧ world r = ready_world
  ∧ pointer_type_cache_ (world r) = pointer_type_cache_ ready_world
  ∧ forwarded (out r) = []
  ∧ channel_messages (out r) = []
  ∧ "HandlePointerMessage: GetPointerType failed for pointer 3, error: 87" ∈ logged (out r).
Proof.
  assert (3 ∈ type_queries (out (dispatch TopLevel (env_with None None) 3000
                                   WM_POINTERDOWN 3 0 ready_world))) as Hq
    by (vm_compute; left).
  split; [exact Hq|]. split; [reflexivity|].
  exact (C8_query_failure_is_local TopLevel (env_with None None) 3000 WM_POINTERDOWN 3 0
           ready_world Hq eq_refl).
Defined.

Lemma payload_dom ev :
  dom (payload ev)
  = {[EncodableString "pointerId"; EncodableString "pointerType"; EncodableString "pressure"]}.
Proof. unfold payload. rewrite !dom_insert_L, dom_empty_L. set_solver. Qed.

Lemma payload_lookup ev :
  payload ev !! EncodableString "pointerId"
  = Some (EncodableInt (static_cast_int (ev_pointerId ev)))
  ∧ payload ev !! EncodableString "pointerType"
    = Some (EncodableInt (static_cast_int (ev_pointerType ev)))
  ∧ payload ev !! EncodableString "pressure"
    = Some (EncodableInt (static_cast_int (ev_pressure ev))).
Proof.
  unfold payload. split; [|split].
  - rewrite lookup_insert_ne, lookup_insert_ne by done. apply lookup_insert_eq.
  - rewrite lookup_insert_ne by done. apply lookup_insert_eq.
  - apply lookup_insert_eq.
Qed.

(** C9: a pointer-down whose device-type query succeeds hands exactly one
    event to the forwarder; with the channel established the forwarder sends
    exactly one [onPointerTypeDetected] message whose payload has exactly the
    integer keys [pointerId], [pointerType] and [pressure]; with no channel
    the forwarder only logs and leaves the state as it was. *)
Theorem C9_one_message_or_logged_noop via env hwnd wparam lparam s pointerType :
  let pointerId := GET_POINTERID_WPARAM wparam in
  let r := dispatch via env hwnd WM_POINTERDOWN wparam lparam s in
  pointerId ∈ type_queries (out r) →
  os_GetPointerType env pointerId = Some pointerType →
  (∃ pressure,
     let ev := mkEvent pointerId (UINT32 pointerType) pressure in
     forwarded (out r) = [ev]
     ∧ match pointer_channel_ s with
       | Some channel =>
           channel_messages (out r)
           = [mkMethodCall channel "onPointerTypeDetected" (payload ev)]
           ∧ dom (payload ev)
             = {[EncodableString "pointerId"; EncodableString "pointerType";
                 EncodableString "pressure"]}
           ∧ payload ev !! EncodableString "pointerId"
             = Some (EncodableInt (static_cast_int pointerId))
           ∧ payload ev !! EncodableString "pointerType"
             = Some (EncodableInt (static_cast_int (UINT32 pointerType)))
           ∧ payload ev !! EncodableString "pressure"
             = Some (EncodableInt (static_cast_int pressure))
       | None =>
           channel_messages (out r) = []
           ∧ "SendPointerTypeToDart: pointer_channel_ is null!" ∈ logged (out r)
       end)
  ∧ (∀ i t p s0 channel,
       pointer_channel_ s0 = Some channel →
       world (SendPointerTypeToDart i t p s0) = s0
       ∧ channel_messages (out (SendPointerTypeToDart i t p s0))
         = [mkMethodCall channel "onPointerTypeDetected" (payload (mkEvent i t p))])
  ∧ (∀ i t p s0,
       pointer_channel_ s0 = None →
       SendPointerTypeToDart i t p s0
       = mkResult () s0 [SendPointerTypeToDart_call i t p;
                         LogLine "SendPointerTypeToDart: pointer_channel_ is null!"]).
Proof.
  cbn zeta. intros Hq Hty.
  rewrite dispatch_type_queries in Hq.
  destruct (routed via s WM_POINTERDOWN) eqn:Hr; [|by apply elem_of_nil in Hq].
  destruct (g_GetPointerType s) as [f|] eqn:Hg; [|by apply elem_of_nil in Hq].
  assert (classification env s WM_POINTERDOWN wparam
          = Some (mkEvent (GET_POINTERID_WPARAM wparam) (UINT32 pointerType)
                    (pen_pressure env s (GET_POINTERID_WPARAM wparam) (UINT32 pointerType))))
    as Hc by (apply classification_Some; rewrite Hg; eauto 10).
  assert (forwarded (out (dispatch via env hwnd WM_POINTERDOWN wparam lparam s))
          = [mkEvent (GET_POINTERID_WPARAM wparam) (UINT32 pointerType)
               (pen_pressure env s (GET_POINTERID_WPARAM wparam) (UINT32 pointerType))])
    as Hf by (rewrite dispatch_forwarded, Hr, Hc; done).
  split; [|split].
  - exists (pen_pressure env s (GET_POINTERID_WPARAM wparam) (UINT32 pointerType)).
    split; [done|].
    rewrite dispatch_channel_messages, Hf.
    destruct (pointer_channel_ s) as [channel|] eqn:Hch.
    + split; [done|]. split; [apply payload_dom|]. apply payload_lookup.
    + split; [done|].
      rewrite dispatch_eq. cbn [out]. rewrite Hr, !logged_app.
      apply elem_of_app. right. apply elem_of_app. left.
      rewrite HandlePointerMessage_eq. cbn zeta.
      rewrite Hg, Hty. cbn [out].
      rewrite SendPointerTypeToDart_eq. cbn [out pointer_channel_ set_pointer_type_cache_].
      rewrite Hch, decide_True by done.
      apply list_elem_of_omap.
      exists (LogLine "SendPointerTypeToDart: pointer_channel_ is null!").
      split; [|done].
      rewrite elem_of_cons, elem_of_app, !elem_of_cons. tauto.
  - intros i t p s0 channel Hch. rewrite SendPointerTypeToDart_eq, Hch. done.
  - intros i t p s0 Hch. rewrite SendPointerTypeToDart_eq, Hch. done.
Qed.

(** C9 at a mouse coming down on the hosted view. *)
Lemma C9_witness :
  let env := env_with (Some PT_MOUSE) None in
  let r := dispatch ChildView env 3001 WM_POINTERDOWN 7 0 ready_world in
  7 ∈ type_queries (out r)
  ∧ os_GetPointerType env 7 = Some PT_MOUSE
  ∧ ∃ pressure,
      forwarded (out r) = [mkEvent 7 PT_MOUSE pressure]
      ∧ channel_messages (out r)
        = [mkMethodCall "winote/pointer_type" "onPointerTypeDetected"
             (payload (mkEvent 7 PT_MOUSE pressure))].
Proof.
  assert (7 ∈ type_queries (out (dispatch ChildView (env_with (Some PT_MOUSE) None)
                                   3001 WM_POINTERDOWN 7 0 ready_world))) as Hq
    by (vm_compute; left).
  split; [exact Hq|]. split; [reflexivity|].
  destruct (C9_one_message_or_logged_noop ChildView (env_with (Some PT_MOUSE) None)
              3001 7 0 ready_world PT_MOUSE Hq eq_refl) as [(pressure & Hf & Hc & _) _].
  exists pressure. split; [exact Hf | exact Hc].
Defined.

(** ** The capability prober *)

Lemma InitializePointerApi_again ld s :
  g_pointer_api_initialized s = true → InitializePointerApi ld s = mkResult () s [].
Proof. intros H. unfold InitializePointerApi. mstep. rewrite H. reflexivity. Qed.

Lemma InitializePointerApi_first ld s :
  g_pointer_api_initialized s = false →
  InitializePointerApi ld s
  = match GetModuleHandleA ld "user32.dll" with
    | Some user32 =>
        let p := GetProcAddress ld user32 "GetPointerType" in
        let q := GetProcAddress ld user32 "GetPointerPenInfo" in
        mkResult ()
          (set_g_GetPointerPenInfo q
             (set_g_GetPointerType p (set_g_pointer_api_initialized true s)))
          [LogLine "InitializePointerApi: Starting...";
           GetModuleHandleA_call "user32.dll";
           GetProcAddress_call user32 "GetPointerType";
           GetProcAddress_call user32 "GetPointerPenInfo";
           LogLine (if bool_decide (is_Some p) && bool_decide (is_Some q)
                    then "InitializePointerApi: Pointer API initialized successfully"
                    else "InitializePointerApi: Pointer API not available")]
    | None =>
        mkResult () (set_g_pointer_api_initialized true s)
          [LogLine "InitializePointerApi: Starting...";
           GetModuleHandleA_call "user32.dll";
           LogLine "InitializePointerApi: Failed to get user32.dll handle"]
    end.
Proof.
  intros H. unfold InitializePointerApi. mstep. rewrite H.
  destruct (GetModuleHandleA ld "user32.dll"); mstep; [|reflexivity].
  destruct (_ && _); reflexivity.
Qed.

Lemma InitializePointerApi_initialized ld s :
  g_pointer_api_initialized (world (InitializePointerApi ld s)) = true.
Proof.
  destruct (g_pointer_api_initialized s) eqn:H.
  - rewrite InitializePointerApi_again by done. done.
  - rewrite InitializePointerApi_first by done.
    destruct (GetModuleHandleA ld "user32.dll"); reflexivity.
Qed.

(** ** The process as a whole *)

Lemma HandlePointerMessage_loader_calls env message wparam lparam s :
  loader_calls (out (HandlePointerMessage env message wparam lparam s)) = [].
Proof. hpm_cases env s wparam. Qed.

Lemma dispatch_loader_calls via env hwnd message wparam lparam s :
  loader_calls (out (dispatch via env hwnd message wparam lparam s)) = [].
Proof.
  rewrite dispatch_eq. cbn [out]. rewrite !loader_calls_app.
  rewrite (proj2 (proj2 (proj2 (proj2 (passed_on_silent _ _ _ _ _ _ _))))), app_nil_r.
  replace (loader_calls match via with ChildView => subclass_log message | TopLevel => [] end)
    with (@nil Effect)
    by (destruct via; [done | symmetry; apply subclass_log_logged_only]).
  destruct (routed via s message); [apply HandlePointerMessage_loader_calls | done].
Qed.

Section ProcessFacts.

Variable show_HWND : HWND → string.
Variable show_WNDPROC : WNDPROC → string.

Lemma OnCreate_quiet ce s :
  let r := OnCreate show_HWND show_WNDPROC ce s in
  capabilities (world r) = capabilities s
  ∧ loader_calls (out r) = [] ∧ forwarded (out r) = [] ∧ channel_messages (out r) = [].
Proof.
  unfold OnCreate, SubclassFlutterView. mstep.
  destruct (ans_Win32Window_OnCreate ce); mstep; [|done].
  destruct (ans_engine ce), (ans_view ce); mstep; try done.
  destruct (ans_GetNativeWindow ce); mstep; [|done].
  destruct (ans_SetWindowLongPtr ce); mstep; done.
Qed.

(** Once the prober has run, no step of the process runs it again or
    touches what it stored. *)
Lemma step_capabilities st s :
  g_pointer_api_initialized s = true →
  capabilities (world (step show_HWND show_WNDPROC st s)) = capabilities s
  ∧ loader_calls (out (step show_HWND show_WNDPROC st s)) = [].
Proof.
  intros Hinit. destruct st as [ld|ce|via env hwnd message wparam lparam| |]; cbn [step].
  - unfold FlutterWindow_ctor. mstep.
    rewrite !InitializePointerApi_again by done. cbn [world out]. done.
  - mstep. rewrite app_nil_r. split; apply OnCreate_quiet.
  - mstep. rewrite app_nil_r, dispatch_world, dispatch_loader_calls. done.
  - unfold OnDestroy. mstep. destruct (flutter_controller_ s); done.
  - unfold FlutterWindow_dtor. mstep. done.
Qed.

Lemma process_cons st steps s :
  process show_HWND show_WNDPROC (st :: steps) s
  = let r := step show_HWND show_WNDPROC st s in
    if val r
    then mkResult () (world (process show_HWND show_WNDPROC steps (world r)))
           (out r ++ out (process show_HWND show_WNDPROC steps (world r)))
    else mkResult () (world r) (out r).
Proof.
  cbn [process]. mstep.
  match goal with |- context [if ?b then _ else _] => destruct b end.
  - f_equal. apply unit_eta.
  - rewrite app_nil_r. reflexivity.
Qed.

Lemma process_capabilities steps s :
  g_pointer_api_initialized s = true →
  capabilities (world (process show_HWND show_WNDPROC steps s)) = capabilities s
  ∧ loader_calls (out (process show_HWND show_WNDPROC steps s)) = [].
Proof.
  revert s. induction steps as [|st steps IH]; intros s Hinit; [done|].
  rewrite process_cons. cbn zeta.
  destruct (step_capabilities st s Hinit) as [Hc Hl].
  destruct (val (step show_HWND show_WNDPROC st s)); cbn [world out].
  - destruct (IH (world (step show_HWND show_WNDPROC st s))) as [Hc' Hl'].
    { unfold capabilities in Hc. congruence. }
    rewrite loader_calls_app, Hl, Hl', Hc'. done.
  - done.
Qed.

(** Without the device-type entry point no step produces an event. *)
Lemma step_no_event st s :
  g_GetPointerType s = None →
  forwarded (out (step show_HWND show_WNDPROC st s)) = []
  ∧ channel_messages (out (step show_HWND show_WNDPROC st s)) = [].
Proof.
  intros Hg. destruct st as [ld|ce|via env hwnd message wparam lparam| |]; cbn [step].
  - unfold FlutterWindow_ctor. mstep. rewrite !app_nil_r.
    match goal with |- context [InitializePointerApi ld ?w] => set (s0 := w) end.
    destruct (g_pointer_api_initialized s0) eqn:Hi.
    + rewrite InitializePointerApi_again by done. done.
    + rewrite InitializePointerApi_first by done.
      destruct (GetModuleHandleA ld "user32.dll"); done.
  - mstep. rewrite app_nil_r. split; apply OnCreate_quiet.
  - mstep. rewrite app_nil_r, dispatch_channel_messages, !dispatch_forwarded.
    unfold classification. rewrite Hg.
    destruct (routed via s message), (pointer_channel_ s); done.
  - unfold OnDestroy. mstep. destruct (flutter_controller_ s); done.
  - unfold FlutterWindow_dtor. mstep. done.
Qed.

Lemma process_no_event steps s :
  g_pointer_api_initialized s = true →
  g_GetPointerType s = None →
  forwarded (out (process show_HWND show_WNDPROC steps s)) = []
  ∧ channel_messages (out (process show_HWND show_WNDPROC steps s)) = [].
Proof.
  revert s. induction steps as [|st steps IH]; intros s Hinit Hg; [done|].
  rewrite process_cons. cbn zeta.
  destruct (step_capabilities st s Hinit) as [Hc _].
  destruct (step_no_event st s Hg) as [Hf Hm].
  destruct (val (step show_HWND show_WNDPROC st s)); cbn [world out].
  - destruct (IH (world (step show_HWND show_WNDPROC st s))) as [Hf' Hm'].
    { unfold capabilities in Hc. congruence. }
    { unfold capabilities in Hc. congruence. }
    rewrite forwarded_app, channel_messages_app, Hf, Hf', Hm, Hm'. done.
  - done.
Qed.

End ProcessFacts.

Lemma result_unit_eta (r : Result unit) : mkResult () (world r) (out r) = r.
Proof.
  exact (f_equal (λ u, mkResult u (world r) (out r)) (eq_sym (unit_eta (val r)))).
Qed.

(** C7: the prober resolves the two entry points on its first call only;
    every later call returns at once and leaves the stored pointers as they
    are, so calling it twice is calling it once, and nothing else in the
    process retries a resolution or overwrites its result. *)
Theorem C7_resolution_attempted_once (show_HWND : HWND → string)
    (show_WNDPROC : WNDPROC → string) (ld : Loader) (s : World) :
  let r := InitializePointerApi ld s in
  (g_pointer_api_initialized s = false →
     loader_calls (out r)
     = GetModuleHandleA_call "user32.dll" ::
       match GetModuleHandleA ld "user32.dll" with
       | Some user32 => [GetProcAddress_call user32 "GetPointerType";
                         GetProcAddress_call user32 "GetPointerPenInfo"]
       | None => []
       end
     ∧ g_GetPointerType (world r)
       = match GetModuleHandleA ld "user32.dll" with
         | Some user32 => GetProcAddress ld user32 "GetPointerType"
         | None => g_GetPointerType s
         end
     ∧ g_GetPointerPenInfo (world r)
       = match GetModuleHandleA ld "user32.dll" with
         | Some user32 => GetProcAddress ld user32 "GetPointerPenInfo"
         | None => g_GetPointerPenInfo s
         end)
  ∧ (∀ ld', InitializePointerApi ld' (world r) = mkResult () (world r) [])
  ∧ (∀ ld', (InitializePointerApi ld;; InitializePointerApi ld') s = r)
  ∧ (∀ steps,
       let r' := process show_HWND show_WNDPROC steps (world r) in
       loader_calls (out r') = []
       ∧ capabilities (world r') = capabilities (world r)).
Proof.
  cbn zeta. split; [|split; [|split]].
  - intros Hinit. rewrite InitializePointerApi_first by done.
    destruct (GetModuleHandleA ld "user32.dll"); done.
  - intros ld'. apply InitializePointerApi_again, InitializePointerApi_initialized.
  - intros ld'. mstep.
    rewrite (InitializePointerApi_again ld')
      by apply InitializePointerApi_initialized.
    mstep. rewrite app_nil_r. apply result_unit_eta.
  - intros steps.
    destruct (process_capabilities show_HWND show_WNDPROC steps
                (world (InitializePointerApi ld s))) as [Hc Hl].
    { apply InitializePointerApi_initialized. }
    done.
Qed.

(** C7 at the first call on a system without the pointer entry points. *)
Lemma C7_witness :
  g_pointer_api_initialized initial_world = false
  ∧ loader_calls (out (InitializePointerApi old_loader initial_world))
    = [GetModuleHandleA_call "user32.dll"; GetProcAddress_call 7001 "GetPointerType";
       GetProcAddress_call 7001 "GetPointerPenInfo"]
  ∧ g_GetPointerType (world (InitializePointerApi old_loader initial_world)) = None
  ∧ g_GetPointerPenInfo (world (InitializePointerApi old_loader initial_world)) = None.
Proof.
  split; [reflexivity|].
  exact (proj1 (C7_resolution_attempted_once (λ _, "") (λ _, "") old_loader initial_world)
           eq_refl).
Defined.

(** ** Sequences of pointer messages *)

Lemma run_out_cons d ds s : out (run (d :: ds) s) = out (deliver d s) ++ out (run ds s).
Proof. rewrite run_cons. cbn [out]. rewrite deliver_world, run_out_set_cache. done. Qed.

Lemma run_forwarded_elem ds s ev :
  ev ∈ forwarded (out (run ds s)) ↔ ∃ d, d ∈ ds ∧ ev ∈ forwarded (out (deliver d s)).
Proof.
  induction ds as [|d ds IH].
  - cbn. rewrite elem_of_nil. split; [done|]. intros (d & Hd & _). by apply elem_of_nil in Hd.
  - rewrite run_out_cons, forwarded_app, elem_of_app, IH. split.
    + intros [H|(d' & Hd' & H)]; [exists d | exists d']; rewrite elem_of_cons; auto.
    + intros (d' & Hd' & H). apply elem_of_cons in Hd' as [->|Hd']; eauto.
Qed.

Lemma run_channel_messages ds s :
  channel_messages (out (run ds s))
  = match pointer_channel_ s with
    | Some channel =>
        (λ ev, mkMethodCall channel "onPointerTypeDetected" (payload ev))
          <$> forwarded (out (run ds s))
    | None => []
    end.
Proof.
  induction ds as [|d ds IH].
  - destruct (pointer_channel_ s); done.
  - rewrite run_out_cons, channel_messages_app, forwarded_app, IH.
    unfold deliver. rewrite dispatch_channel_messages.
    destruct (pointer_channel_ s); [rewrite fmap_app|]; done.
Qed.

Lemma LOWORD_range w : 0 ≤ LOWORD w < 2 ^ 16.
Proof.
  unfold LOWORD. change 0xFFFF with (Z.ones 16).
  rewrite Z.land_ones by lia. apply Z.mod_pos_bound. lia.
Qed.

(** An event carries the identifier of a pointer-down that was classified. *)
Lemma deliver_forwarded_elem d s ev :
  ev ∈ forwarded (out (deliver d s))
  ↔ kind d = Down
    ∧ reaches_classifier s (via d) Down
    ∧ is_Some (g_GetPointerType s)
    ∧ ∃ pointerType,
        os_GetPointerType (pm_env d) (pointer_id d) = Some pointerType
        ∧ ev = mkEvent (pointer_id d) (UINT32 pointerType)
                 (pen_pressure (pm_env d) s (pointer_id d) (UINT32 pointerType)).
Proof.
  unfold deliver. rewrite dispatch_forwarded_elem, classification_Some, message_of_down.
  fold (pointer_id d). split.
  - intros (Hr & Hk & Hrest). rewrite Hk in Hr. apply routed_message_of in Hr. done.
  - intros (Hk & Hr & Hrest). rewrite Hk. split; [by apply routed_message_of|done].
Qed.

Lemma classified_down_event s ds id :
  (∃ ev, ev ∈ forwarded (out (run ds s)) ∧ ev_pointerId ev = id) ↔ classified_down s ds id.
Proof.
  unfold classified_down. split.
  - intros (ev & Hev & Hid). apply run_forwarded_elem in Hev as (d & Hd & Hev).
    apply deliver_forwarded_elem in Hev as (Hk & Hr & Hg & ty & Hty & ->).
    cbn in Hid. subst id. exists d. eauto 10.
  - intros (d & Hd & Hk & Hid & Hg & Hr & [ty Hty]). subst id.
    eexists. split; [|shelve].
    apply run_forwarded_elem. exists d. split; [done|].
    apply deliver_forwarded_elem. eauto 10.
    Unshelve. done.
Qed.

(** C1, as the code has it: the classifier hands an event for an identifier
    to the forwarder exactly when a pointer-down for it occurs with the
    device-type entry point resolved and the query succeeding on that message;
    a message for it goes out on the channel exactly when, in addition, the
    channel is established.  Without the entry point nothing is ever
    produced, whatever the process goes through. *)
Theorem C1_event_iff_classified_down (show_HWND : HWND → string)
    (show_WNDPROC : WNDPROC → string) (s : World) (ds : list PointerMessage) (id : Z) :
  ((∃ ev, ev ∈ forwarded (out (run ds s)) ∧ ev_pointerId ev = id)
   ↔ classified_down s ds id)
  ∧ ((∃ m, m ∈ channel_messages (out (run ds s))
           ∧ mc_args m !! EncodableString "pointerId" = Some (EncodableInt id))
     ↔ classified_down s ds id ∧ is_Some (pointer_channel_ s))
  ∧ (g_GetPointerType s = None →
       forwarded (out (run ds s)) = [] ∧ channel_messages (out (run ds s)) = [])
  ∧ (∀ ld steps,
       g_GetPointerType (world (InitializePointerApi ld initial_world)) = None →
       let r := process show_HWND show_WNDPROC (Construct ld :: steps) initial_world in
       forwarded (out r) = [] ∧ channel_messages (out r) = []).
Proof.
  cbn zeta. split; [apply classified_down_event|]. split; [|split].
  - rewrite <- classified_down_event, run_channel_messages. split.
    + intros (m & Hm & Hid).
      destruct (pointer_channel_ s) as [channel|]; [|by apply elem_of_nil in Hm].
      apply list_elem_of_fmap in Hm as (ev & -> & Hev). split; [|done].
      exists ev. split; [done|].
      cbn [mc_args] in Hid. rewrite (proj1 (payload_lookup ev)) in Hid.
      injection Hid as Hid.
      pose proof Hev as Hev'.
      apply run_forwarded_elem in Hev' as (d & _ & Hd).
      apply deliver_forwarded_elem in Hd as (_ & _ & _ & ty & _ & ->).
      cbn [ev_pointerId] in *. pose proof (LOWORD_range (pm_wparam d)).
      rewrite static_cast_int_small in Hid by (unfold pointer_id, GET_POINTERID_WPARAM; lia).
      done.
    + intros ((ev & Hev & Hid) & [channel Hch]). rewrite Hch.
      exists (mkMethodCall channel "onPointerTypeDetected" (payload ev)). split.
      * apply list_elem_of_fmap. eauto.
      * cbn [mc_args]. rewrite (proj1 (payload_lookup ev)). do 2 f_equal.
        pose proof Hev as Hev'.
        apply run_forwarded_elem in Hev' as (d & _ & Hd).
        apply deliver_forwarded_elem in Hd as (_ & _ & _ & ty & _ & ->).
        cbn [ev_pointerId] in *. pose proof (LOWORD_range (pm_wparam d)).
        rewrite static_cast_int_small by (unfold pointer_id, GET_POINTERID_WPARAM; lia).
        done.
  - intros Hg.
    assert (forwarded (out (run ds s)) = []) as Hf.
    { apply elem_of_nil_inv. intros ev Hev.
      apply run_forwarded_elem in Hev as (d & _ & Hd).
      apply deliver_forwarded_elem in Hd as (_ & _ & [f Hf] & _). congruence. }
    split; [done|]. rewrite run_channel_messages, Hf. destruct (pointer_channel_ s); done.
  - intros ld steps Hg. rewrite process_cons. cbn [step]. mstep.
    unfold FlutterWindow_ctor. mstep. rewrite !app_nil_r.
    change (set_flutter_view_hwnd_ None
              (set_original_flutter_view_proc_ None
                 (set_pointer_type_cache_ ∅
                    (set_pointer_channel_ None (set_flutter_controller_ false initial_world)))))
      with initial_world in *.
    rewrite forwarded_app, channel_messages_app.
    destruct (process_no_event show_HWND show_WNDPROC steps
                (set_g_flutter_window true (world (InitializePointerApi ld initial_world))))
      as [Hf Hm].
    { cbn [g_pointer_api_initialized set_g_flutter_window].
      apply InitializePointerApi_initialized. }
    { done. }
    cbv beta iota delta [val world out] in Hf, Hm |- *.
    rewrite Hf, Hm, !app_nil_r.
    rewrite InitializePointerApi_first by done.
    destruct (GetModuleHandleA ld "user32.dll"); done.
Qed.

(** C1 as the specification words it fails before the channel exists: a
    pen comes down, the entry points are there, the query succeeds, and no
    message reaches the channel. *)
Lemma C1_counterexample :
  ¬ event_iff_as_specified unwired_world [top Down 5 (env_with (Some PT_PEN) (Some pen_600))] 5.
Proof.
  intros [_ H]. destruct H as (m & Hm & _).
  - exists (top Down 5 (env_with (Some PT_PEN) (Some pen_600))).
    split; [apply list_elem_of_singleton; reflexivity|].
    split; [reflexivity|]. split; [reflexivity|].
    split; [eexists; reflexivity|]. split; [discriminate|]. eexists; reflexivity.
  - rewrite run_channel_messages in Hm. by apply elem_of_nil in Hm.
Qed.

(** C1 on a system without the entry points: before and after the prober
    has run, a pen that comes down produces nothing. *)
Lemma C1_witness :
  let pen_down := top Down 5 (env_with (Some PT_PEN) (Some pen_600)) in
  let later := [Create (mkCreateEnv true true true (Some 3001) (Some 2001) 0);
                Window TopLevel (env_with (Some PT_PEN) (Some pen_600)) 3000 WM_POINTERDOWN 5 0] in
  g_GetPointerType initial_world = None
  ∧ g_GetPointerType (world (InitializePointerApi old_loader initial_world)) = None
  ∧ forwarded (out (run [pen_down] initial_world)) = []
  ∧ channel_messages (out (run [pen_down] initial_world)) = []
  ∧ forwarded (out (process (λ _, "") (λ _, "") (Construct old_loader :: later)
                      initial_world)) = []
  ∧ channel_messages (out (process (λ _, "") (λ _, "") (Construct old_loader :: later)
                             initial_world)) = [].
Proof.
  split; [reflexivity|]. split; [reflexivity|].
  pose proof (C1_event_iff_classified_down (λ _, "") (λ _, "") initial_world
                [top Down 5 (env_with (Some PT_PEN) (Some pen_600))] 5)
    as (_ & _ & Hnever & Hprocess).
  destruct (Hnever eq_refl) as [Hf Hm].
  destruct (Hprocess old_loader
              [Create (mkCreateEnv true true true (Some 3001) (Some 2001) 0);
               Window TopLevel (env_with (Some PT_PEN) (Some pen_600)) 3000 WM_POINTERDOWN 5 0]
              eq_refl) as [Hf' Hm'].
  split; [exact Hf|]. split; [exact Hm|]. split; [exact Hf' | exact Hm'].
Defined.

(** ** Pointer-leave *)

(** On the top-level path a leave erases the entry and asks the platform
    nothing; erasing an entry that is not there changes nothing. *)
Lemma MessageHandler_leave env hwnd wparam lparam s :
  leave_as_specified TopLevel env s hwnd wparam lparam
  ∧ channel_messages (out (dispatch TopLevel env hwnd WM_POINTERLEAVE wparam lparam s)) = []
  ∧ (pointer_type_cache_ s !! GET_POINTERID_WPARAM wparam = None →
       world (dispatch TopLevel env hwnd WM_POINTERLEAVE wparam lparam s) = s).
Proof.
  unfold leave_as_specified. cbn zeta.
  rewrite dispatch_world, dispatch_type_queries, dispatch_channel_messages, !dispatch_forwarded.
  cbn [pointer_type_cache_ set_pointer_type_cache_].
  unfold cache_after.
  replace (routed TopLevel s WM_POINTERLEAVE) with false by (vm_compute; reflexivity).
  rewrite bool_decide_eq_true_2 by done.
  split; [done|]. split; [destruct (pointer_channel_ s); done|].
  intros Habsent. rewrite delete_id by done. apply set_pointer_type_cache__id.
Qed.

(** C2 at the failing input: a leave that arrives on the subclass path is
    handed to the classifier like any other pointer message; the platform is
    queried and the entry is written again instead of removed.  The same
    message on the top-level path removes it. *)
Theorem C2_leave_on_subclass_path_is_classified :
  let s := set_pointer_type_cache_ {[5 := PT_PEN]} ready_world in
  let env := env_with (Some PT_TOUCH) None in
  let r := dispatch ChildView env 3001 WM_POINTERLEAVE 5 0 s in
  pointer_type_cache_ (world r) !! 5 = Some PT_TOUCH
  ∧ type_queries (out r) = [5]
  ∧ forwarded (out r) = []
  ∧ ¬ leave_as_specified ChildView env s 3001 5 0
  ∧ leave_as_specified TopLevel env s 3000 5 0
  ∧ pointer_type_cache_ (world (dispatch TopLevel env 3000 WM_POINTERLEAVE 5 0 s)) !! 5 = None.
Proof.
  cbn zeta. split; [vm_compute; reflexivity|]. split; [vm_compute; reflexivity|].
  split; [vm_compute; reflexivity|]. split; [|split].
  - intros (_ & Hq & _). vm_compute in Hq. discriminate.
  - apply MessageHandler_leave.
  - vm_compute. reflexivity.
Qed.

(** ** The contact table along a sequence of messages *)

Lemma run_snoc_cache ds d s :
  pointer_type_cache_ (world (run (ds ++ [d]) s))
  = cache_after (via d) (pm_env d) (world (run ds s)) (message_of (kind d)) (pm_wparam d).
Proof.
  rewrite run_app. cbn [world]. rewrite run_cons. cbn [world run]. mstep.
  rewrite deliver_world. reflexivity.
Qed.

(** What one message does to the entry of an identifier. *)
Lemma cache_after_lookup via env s message wparam id :
  cache_after via env s message wparam !! id
  = if decide (GET_POINTERID_WPARAM wparam = id) then
      if routed via s message then
        match g_GetPointerType s, os_GetPointerType env id with
        | Some _, Some pointerType => Some (UINT32 pointerType)
        | _, _ => pointer_type_cache_ s !! id
        end
      else if bool_decide (via = TopLevel ∧ message = WM_POINTERLEAVE) then None
      else pointer_type_cache_ s !! id
    else pointer_type_cache_ s !! id.
Proof.
  unfold cache_after. case_decide as Hid.
  - subst id. destruct (routed via s message).
    + destruct (g_GetPointerType s); [|done].
      destruct (os_GetPointerType env _); [|done]. apply lookup_insert_eq.
    + destruct (bool_decide _); [apply lookup_delete_eq | done].
  - destruct (routed via s message).
    + destruct (g_GetPointerType s); [|done].
      destruct (os_GetPointerType env _); [|done]. by apply lookup_insert_ne.
    + destruct (bool_decide _); [by apply lookup_delete_ne | done].
Qed.

Lemma snoc_split {A} (l pre post : list A) (x y : A) :
  l ++ [x] = pre ++ y :: post
  ↔ (post = [] ∧ pre = l ∧ y = x) ∨ (∃ post', post = post' ++ [x] ∧ l = pre ++ y :: post').
Proof.
  split.
  - intros H. destruct (decide (length post = 0%nat)) as [Hz|Hne].
    + apply length_zero_iff_nil in Hz as ->. apply app_inj_tail in H as [-> ->]. by left.
    + assert (post ≠ []) as Hne' by (intros ->; done).
      destruct (exists_last Hne') as (post' & z & ->).
      change (pre ++ y :: post' ++ [z]) with (pre ++ (y :: post') ++ [z]) in H.
      rewrite app_assoc in H.
      apply app_inj_tail in H as [-> ->]. right. by exists post'.
  - intros [(-> & -> & ->)|(post' & -> & ->)]; [done|]. by rewrite <- app_assoc.
Qed.

Lemma run_routed ds s via message :
  routed via (world (run ds s)) message = routed via s message.
Proof. rewrite run_frame. reflexivity. Qed.

Lemma run_g_GetPointerType ds s :
  g_GetPointerType (world (run ds s)) = g_GetPointerType s.
Proof. rewrite run_frame. reflexivity. Qed.

Lemma recorded_and_not_left_snoc s id ds d :
  recorded_and_not_left s id (ds ++ [d])
  ↔ records s id d ∨ (recorded_and_not_left s id ds ∧ ¬ erases id d).
Proof.
  unfold recorded_and_not_left. split.
  - intros (pre & d0 & post & Hsplit & Hrec & Hpost).
    apply snoc_split in Hsplit as [(-> & -> & ->)|(post' & -> & ->)]; [by left|].
    apply Forall_app in Hpost as [Hpost' Hd]. rewrite Forall_singleton in Hd.
    right. split; [by exists pre, d0, post' | exact Hd].
  - intros [Hrec|[(pre & d0 & post & -> & Hrec & Hpost) Hd]].
    + exists ds, d, []. split; [done|]. split; [done|]. constructor.
    + exists pre, d0, (post ++ [d]). split; [by rewrite <- app_assoc|]. split; [done|].
      apply Forall_app. split; [done|]. by apply Forall_singleton.
Qed.

(** C3, as the code has it: starting from an empty entry, and with leaves
    handled on the top-level path, the table has an entry for an identifier
    exactly when some down, up, update or enter message for it was classified
    successfully and no leave for it has been handled since. *)
Theorem C3_entry_iff_recorded_and_not_left (s : World) (ds : list PointerMessage) (id : Z) :
  pointer_type_cache_ s !! id = None →
  Forall (λ d, kind d = Leave → via d = TopLevel) ds →
  is_Some (pointer_type_cache_ (world (run ds s)) !! id) ↔ recorded_and_not_left s id ds.
Proof.
  intros Hempty. induction ds as [|d ds IH] using rev_ind; intros Hleave.
  - cbn. rewrite Hempty. split; [by intros [? ?]|].
    intros (pre & d & post & Hsplit & _). by destruct pre.
  - apply Forall_app in Hleave as [Hl Hd]. rewrite Forall_singleton in Hd.
    specialize (IH Hl).
    rewrite recorded_and_not_left_snoc, run_snoc_cache, cache_after_lookup.
    rewrite run_routed, run_g_GetPointerType. fold (pointer_id d).
    unfold records, erases.
    destruct (decide (pointer_id d = id)) as [Hid|Hid]; [|rewrite IH; tauto].
    destruct (routed (via d) s (message_of (kind d))) eqn:Hr.
    + assert (reaches_classifier s (via d) (kind d)) as Hreach by by apply routed_message_of.
      assert (kind d ≠ Leave) as Hk.
      { intros Hk. specialize (Hd Hk). rewrite Hd, Hk in Hr. vm_compute in Hr. done. }
      destruct (g_GetPointerType s) as [f|] eqn:Hg.
      * destruct (os_GetPointerType (pm_env d) id) as [ty|] eqn:Hty.
        -- split; [intros _; left; eauto 10 | eauto].
        -- rewrite IH. split; [tauto|]. intros [(_ & _ & _ & _ & [? ?])|[? _]]; done.
      * rewrite IH. split; [tauto|]. intros [(_ & _ & _ & [? ?] & _)|[? _]]; done.
    + assert (¬ reaches_classifier s (via d) (kind d)) as Hreach.
      { intros H. apply routed_message_of in H. congruence. }
      destruct (bool_decide_reflect (via d = TopLevel ∧ message_of (kind d) = WM_POINTERLEAVE))
        as [[Hv Hm]|Hn].
      * apply (message_of_inj _ Leave) in Hm.
        split; [by intros [? ?]|]. intros [?|[_ ?]]; tauto.
      * rewrite IH. split; [|tauto]. intros H. right. split; [done|].
        intros [_ Hk]. apply Hn. rewrite Hk. auto.
Qed.

(** C3 on an enter, a down, a leave and an update of one touch contact: the
    entry is there at the end, written by the update that followed the leave. *)
Lemma C3_witness :
  let ds := [top Enter 9 (env_with (Some PT_TOUCH) None);
             top Down 9 (env_with (Some PT_TOUCH) None);
             top Leave 9 quiet_env;
             child Update 9 (env_with (Some PT_TOUCH) None)] in
  pointer_type_cache_ ready_world !! 9 = None
  ∧ Forall (λ d, kind d = Leave → via d = TopLevel) ds
  ∧ pointer_type_cache_ (world (run ds ready_world)) !! 9 = Some PT_TOUCH
  ∧ recorded_and_not_left ready_world 9 ds.
Proof.
  assert (Forall (λ d, kind d = Leave → via d = TopLevel)
            [top Enter 9 (env_with (Some PT_TOUCH) None);
             top Down 9 (env_with (Some PT_TOUCH) None);
             top Leave 9 quiet_env;
             child Update 9 (env_with (Some PT_TOUCH) None)]) as H
    by (repeat first [apply List.Forall_nil | apply List.Forall_cons; [cbn; intros; done|]]).
  split; [reflexivity|]. split; [exact H|]. split; [vm_compute; reflexivity|].
  apply (C3_entry_iff_recorded_and_not_left ready_world _ 9 eq_refl H).
  exists PT_TOUCH. vm_compute. reflexivity.
Defined.

(** C3 as the specification words it fails at once: a pointer-down whose
    device-type query fails has been observed, and the table has no entry. *)
Lemma C3_counterexample :
  ¬ table_invariant_as_specified ready_world [top Down 3 (env_with None None)] 3.
Proof.
  intros [_ H]. destruct H as [ty Hty]; [reflexivity|].
  vm_compute in Hty. discriminate.
Qed.

(** ** Passing the message on *)

Lemma local_handling_eq via env hwnd message wparam lparam s :
  local_handling via env hwnd message wparam lparam s
  = mkResult ()
      (set_pointer_type_cache_ (cache_after via env s message wparam) s)
      ((match via with ChildView => subclass_log message | TopLevel => [] end)
       ++ (if routed via s message
           then out (HandlePointerMessage env message wparam lparam s) else [])).
Proof.
  rewrite <- (result_unit_eta (local_handling via env hwnd message wparam lparam s)).
  f_equal.
  - unfold local_handling, ProcessPointerMessage, cache_after, routed.
    destruct via; msg_cases message; mstep; decide_all; cbn [andb]; flow_cases env s.
    all: try rewrite (HandlePointerMessage_frame env _ wparam lparam s) at 1.
    all: rewrite ?HandlePointerMessage_world, ?set_pointer_type_cache__id; try reflexivity.
    all: destruct (g_GetPointerType s), (os_GetPointerType env (GET_POINTERID_WPARAM wparam));
      cbn [pointer_type_cache_ set_pointer_type_cache_];
      rewrite ?set_pointer_type_cache__id; reflexivity.
  - unfold local_handling, ProcessPointerMessage, routed, subclass_log.
    destruct via; msg_cases message; mstep; decide_all; cbn [andb]; flow_cases env s.
    all: rewrite ?app_nil_r; reflexivity.
Qed.

Lemma local_handling_no_hand_over via env hwnd message wparam lparam s :
  next_handlers (out (local_handling via env hwnd message wparam lparam s)) = [].
Proof.
  rewrite local_handling_eq. cbn [out]. rewrite next_handlers_app.
  replace (next_handlers match via with ChildView => subclass_log message | TopLevel => [] end)
    with (@nil Effect)
    by (destruct via; [done | symmetry; apply subclass_log_logged_only]).
  destruct (routed via s message); [apply HandlePointerMessage_next_handlers | done].
Qed.

(** Either procedure is its own handling followed by the hand-over. *)
Lemma dispatch_after_local_handling via env hwnd message wparam lparam s :
  dispatch via env hwnd message wparam lparam s
  = mkResult (outcome_of via env s message)
      (world (local_handling via env hwnd message wparam lparam s))
      (out (local_handling via env hwnd message wparam lparam s)
       ++ passed_on via env s hwnd message wparam lparam).
Proof. rewrite dispatch_eq, local_handling_eq. cbn [world out]. by rewrite <- app_assoc. Qed.

(** C10: on both paths a message is handed to the next handler only after the
    procedure's own handling is over, and whatever that handling did: the
    calls of a procedure are those of its own handling, none of them a
    hand-over, followed by the hand-over, and the state it leaves is the one
    its own handling left.  On the subclass path this holds for every
    message.  On the top-level path the code breaks it at one input: a
    [WM_FONTCHANGE] that arrives while [flutter_controller_] is null
    dereferences the null controller in the font arm, before the base window
    is reached, so that message is handed to no one.  Every other call of the
    top-level handler, and so every pointer message, is handed to the hosted
    runtime when there is a controller and, when there is none or the runtime
    declined, to the base window. *)
Theorem C10_passed_on_except_fontchange_without_controller
    env hwnd message wparam lparam s :
  let local via := local_handling via env hwnd message wparam lparam s in
  let child := dispatch ChildView env hwnd message wparam lparam s in
  let top := dispatch TopLevel env hwnd message wparam lparam s in
  let base := [Win32Window_MessageHandler hwnd message wparam lparam] in
  let top_chain :=
    if flutter_controller_ s then
      HandleTopLevelWindowProc hwnd message wparam lparam ::
      match ans_HandleTopLevelWindowProc env with
      | Some _ => []
      | None => if decide (message = WM_FONTCHANGE) then ReloadSystemFonts :: base else base
      end
    else base in
  let top_result :=
    if flutter_controller_ s then
      match ans_HandleTopLevelWindowProc env with
      | Some result => result
      | None => ans_Win32Window_MessageHandler env
      end
    else ans_Win32Window_MessageHandler env in
  (∀ via, next_handlers (out (local via)) = [])
  ∧ (out child
     = out (local ChildView)
       ++ [match g_original_flutter_view_proc s with
           | Some proc => CallWindowProc proc hwnd message wparam lparam
           | None => DefWindowProc hwnd message wparam lparam
           end]
     ∧ world child = world (local ChildView)
     ∧ val child
       = Returned (match g_original_flutter_view_proc s with
                   | Some _ => ans_CallWindowProc env
                   | None => ans_DefWindowProc env
                   end))
  ∧ (message = WM_FONTCHANGE → flutter_controller_ s = false →
       top = mkResult NullDereference s [])
  ∧ (¬ (message = WM_FONTCHANGE ∧ flutter_controller_ s = false) →
       out top = out (local TopLevel) ++ top_chain
       ∧ world top = world (local TopLevel)
       ∧ val top = Returned top_result)
  ∧ (∀ k : PointerKind, message = message_of k →
       out top = out (local TopLevel) ++ top_chain
       ∧ world top = world (local TopLevel)
       ∧ val top = Returned top_result).
Proof.
  cbn zeta.
  assert (¬ (message = WM_FONTCHANGE ∧ flutter_controller_ s = false) →
          passed_on TopLevel env s hwnd message wparam lparam
          = (if flutter_controller_ s then
               HandleTopLevelWindowProc hwnd message wparam lparam ::
               match ans_HandleTopLevelWindowProc env with
               | Some _ => []
               | None =>
                   if decide (message = WM_FONTCHANGE)
                   then [ReloadSystemFonts; Win32Window_MessageHandler hwnd message wparam lparam]
                   else [Win32Window_MessageHandler hwnd message wparam lparam]
               end
             else [Win32Window_MessageHandler hwnd message wparam lparam])
          ∧ outcome_of TopLevel env s message
            = Returned (if flutter_controller_ s then
                          match ans_HandleTopLevelWindowProc env with
                          | Some result => result
                          | None => ans_Win32Window_MessageHandler env
                          end
                        else ans_Win32Window_MessageHandler env)) as Htop.
  { intros Hdef. unfold passed_on, outcome_of.
    destruct (flutter_controller_ s).
    - destruct (ans_HandleTopLevelWindowProc env); [done|]. case_decide; done.
    - case_decide; [exfalso; by apply Hdef|done]. }
  split; [intros via; apply local_handling_no_hand_over|].
  split; [|split; [|split]].
  - rewrite dispatch_after_local_handling. cbn [val world out].
    unfold passed_on, outcome_of. destruct (g_original_flutter_view_proc s); done.
  - intros -> Hc. rewrite dispatch_eq. unfold outcome_of, passed_on, cache_after, routed.
    rewrite Hc, !bool_decide_eq_false_2.
    + by rewrite set_pointer_type_cache__id.
    + intros [_ ?]; discriminate.
    + intros [?|[?|[?|?]]]; discriminate.
  - intros Hdef. rewrite dispatch_after_local_handling. cbn [val world out].
    destruct (Htop Hdef) as [-> ->]. done.
  - intros k ->. rewrite dispatch_after_local_handling. cbn [val world out].
    destruct (Htop (λ H, message_of_not_fontchange k (proj1 H))) as [-> ->]. done.
Qed.

(** C10 at the failing input, in the state the constructor leaves, and at a
    pointer-down that the runtime declines on a window that is set up. *)
Lemma C10_witness :
  let s := world (FlutterWindow_ctor new_loader initial_world) in
  let env := env_with None None in
  flutter_controller_ s = false
  ∧ dispatch TopLevel quiet_env 3000 WM_FONTCHANGE 0 0 s = mkResult NullDereference s []
  ∧ next_handlers (out (dispatch TopLevel quiet_env 3000 WM_FONTCHANGE 0 0 s)) = []
  ∧ out (dispatch TopLevel env 3000 WM_POINTERDOWN 3 0 ready_world)
    = out (local_handling TopLevel env 3000 WM_POINTERDOWN 3 0 ready_world)
      ++ [HandleTopLevelWindowProc 3000 WM_POINTERDOWN 3 0;
          Win32Window_MessageHandler 3000 WM_POINTERDOWN 3 0].
Proof.
  assert (flutter_controller_ (world (FlutterWindow_ctor new_loader initial_world)) = false)
    as Hc by reflexivity.
  pose proof (proj1 (proj2 (proj2
                (C10_passed_on_except_fontchange_without_controller quiet_env 3000
                   WM_FONTCHANGE 0 0 (world (FlutterWindow_ctor new_loader initial_world)))))
                eq_refl Hc) as Hbug.
  split; [exact Hc|]. split; [exact Hbug|]. split; [by rewrite Hbug|].
  exact (proj1 (proj2 (proj2 (proj2 (proj2
           (C10_passed_on_except_fontchange_without_controller (env_with None None) 3000
              WM_POINTERDOWN 3 0 ready_world)))) Down eq_refl)).
Defined.



(** * Further properties of the bridge *)

(** ** What one message can touch *)

Lemma pen_queries_app o1 o2 : pen_queries (o1 ++ o2) = pen_queries o1 ++ pen_queries o2.
Proof. apply omap_app. Qed.


Lemma subclass_log_other_readings message :
  pen_queries (subclass_log message) = [] ∧ font_reloads (subclass_log message) = [].
Proof. unfold subclass_log. repeat case_decide; done. Qed.

Lemma HandlePointerMessage_low_word env message wparam lparam wparam' lparam' s :
  LOWORD wparam = LOWORD wparam' →
  HandlePointerMessage env message wparam lparam s
  = HandlePointerMessage env message wparam' lparam' s.
Proof.
  intros H. rewrite !HandlePointerMessage_eq. unfold GET_POINTERID_WPARAM.
  rewrite H. reflexivity.
Qed.

Lemma dispatch_out_split via env hwnd message wparam lparam s :
  out (dispatch via env hwnd message wparam lparam s)
  = (match via with ChildView => subclass_log message | TopLevel => [] end)
    ++ (if routed via s message
        then out (HandlePointerMessage env message wparam lparam s) else [])
    ++ passed_on via env s hwnd message wparam lparam.
Proof. rewrite dispatch_eq. reflexivity. Qed.

Lemma dispatch_logged via env hwnd message wparam lparam s :
  logged (out (dispatch via env hwnd message wparam lparam s))
  = logged (match via with ChildView => subclass_log message | TopLevel => [] end)
    ++ (if routed via s message
        then logged (out (HandlePointerMessage env message wparam lparam s)) else []).
Proof.
  rewrite dispatch_out_split, !logged_app.
  rewrite (proj1 (proj2 (proj2 (proj2 (passed_on_silent _ _ _ _ _ _ _))))), app_nil_r.
  destruct (routed via s message); done.
Qed.

Lemma HandlePointerMessage_pen_queries env message wparam lparam s :
  pen_queries (out (HandlePointerMessage env message wparam lparam s))
  = match g_GetPointerType s, os_GetPointerType env (GET_POINTERID_WPARAM wparam) with
    | Some _, Some pointerType =>
        if bool_decide (UINT32 pointerType = PT_PEN)
           && bool_decide (is_Some (g_GetPointerPenInfo s))
        then [GET_POINTERID_WPARAM wparam] else []
    | _, _ => []
    end.
Proof. hpm_cases env s wparam. Qed.

Lemma passed_on_no_pen_queries via env s hwnd message wparam lparam :
  pen_queries (passed_on via env s hwnd message wparam lparam) = [].
Proof.
  unfold passed_on.
  destruct via, (g_original_flutter_view_proc s), (flutter_controller_ s),
    (ans_HandleTopLevelWindowProc env); repeat case_decide; done.
Qed.

Lemma dispatch_pen_queries via env hwnd message wparam lparam s :
  pen_queries (out (dispatch via env hwnd message wparam lparam s))
  = if routed via s message
    then pen_queries (out (HandlePointerMessage env message wparam lparam s)) else [].
Proof.
  rewrite dispatch_out_split, !pen_queries_app, passed_on_no_pen_queries, app_nil_r.
  replace (pen_queries match via with ChildView => subclass_log message | TopLevel => [] end)
    with (@nil Z)
    by (destruct via; [done | symmetry; apply subclass_log_other_readings]).
  destruct (routed via s message); done.
Qed.

(** X2: only the low word of [wparam] identifies the pointer, and [lparam]
    and the window handle play no part: two calls that agree on the low word
    leave the same state and make the same queries, events, channel messages
    and log lines. *)
Theorem only_the_low_word_identifies via env message s hwnd wparam lparam hwnd' wparam' lparam' :
  LOWORD wparam = LOWORD wparam' →
  let r := dispatch via env hwnd message wparam lparam s in
  let r' := dispatch via env hwnd' message wparam' lparam' s in
  world r = world r'
  ∧ type_queries (out r) = type_queries (out r')
  ∧ pen_queries (out r) = pen_queries (out r')
  ∧ forwarded (out r) = forwarded (out r')
  ∧ channel_messages (out r) = channel_messages (out r')
  ∧ logged (out r) = logged (out r').
Proof.
  intros H. cbn zeta.
  assert (forwarded (out (dispatch via env hwnd message wparam lparam s))
          = forwarded (out (dispatch via env hwnd' message wparam' lparam' s))) as Hf.
  { rewrite !dispatch_forwarded. unfold classification, GET_POINTERID_WPARAM. by rewrite H. }
  split; [|split; [|split; [|split; [|split]]]].
  - rewrite !dispatch_world. unfold cache_after, GET_POINTERID_WPARAM. by rewrite H.
  - rewrite !dispatch_type_queries. unfold GET_POINTERID_WPARAM. by rewrite H.
  - rewrite !dispatch_pen_queries.
    by rewrite (HandlePointerMessage_low_word env message wparam lparam wparam' lparam' s H).
  - done.
  - rewrite !dispatch_channel_messages, Hf. done.
  - rewrite !dispatch_logged.
    by rewrite (HandlePointerMessage_low_word env message wparam lparam wparam' lparam' s H).
Qed.

(** X2 at two words that differ above bit 15. *)
Lemma only_the_low_word_identifies_witness :
  let env := env_with (Some PT_PEN) (Some pen_600) in
  LOWORD 5 = LOWORD 65541
  ∧ world (dispatch TopLevel env 3000 WM_POINTERDOWN 5 0 ready_world)
    = world (dispatch TopLevel env 3000 WM_POINTERDOWN 65541 77 ready_world)
  ∧ forwarded (out (dispatch TopLevel env 3000 WM_POINTERDOWN 5 0 ready_world))
    = forwarded (out (dispatch TopLevel env 3000 WM_POINTERDOWN 65541 77 ready_world)).
Proof.
  assert (LOWORD 5 = LOWORD 65541) as H by reflexivity.
  split; [exact H|].
  pose proof (only_the_low_word_identifies TopLevel (env_with (Some PT_PEN) (Some pen_600))
                WM_POINTERDOWN ready_world 3000 5 0 3000 65541 77 H) as (Hw & _ & _ & Hf & _).
  split; [exact Hw | exact Hf].
Defined.




(** X4: once the destructor has cleared [g_flutter_window], the subclass
    procedure touches nothing: whatever message arrives, the state is
    unchanged, the platform is not queried, nothing is forwarded, and the
    message still reaches the next procedure. *)
Theorem after_destructor_subclass_only_passes_on env hwnd message wparam lparam s :
  let s' := world (FlutterWindow_dtor s) in
  let r := dispatch ChildView env hwnd message wparam lparam s' in
  g_flutter_window s' = false
  ∧ world r = s'
  ∧ type_queries (out r) = [] ∧ pen_queries (out r) = []
  ∧ forwarded (out r) = [] ∧ channel_messages (out r) = []
  ∧ next_handlers (out r)
    = [match g_original_flutter_view_proc s with
       | Some proc => CallWindowProc proc hwnd message wparam lparam
       | None => DefWindowProc hwnd message wparam lparam
       end].
Proof.
  cbn zeta. unfold FlutterWindow_dtor. mstep.
  set (s' := set_g_flutter_window false s).
  assert (routed ChildView s' message = false) as Hr by (unfold routed; apply andb_false_r).
  split; [done|]. split.
  { rewrite dispatch_world. unfold cache_after. rewrite Hr.
    rewrite bool_decide_eq_false_2 by (intros [? _]; done).
    apply set_pointer_type_cache__id. }
  rewrite dispatch_type_queries, dispatch_pen_queries, dispatch_channel_messages,
    !dispatch_forwarded, dispatch_next_handlers, Hr.
  split; [done|]. split; [done|]. split; [done|].
  split; [destruct (pointer_channel_ s'); done|].
  unfold passed_on. subst s'. cbn [g_original_flutter_view_proc set_g_flutter_window].
  destruct (g_original_flutter_view_proc s); done.
Qed.


(** ** The contact table over a sequence of messages *)

Lemma run_cache_cons d ds s :
  pointer_type_cache_ (world (run (d :: ds) s))
  = pointer_type_cache_ (world (run ds (world (deliver d s)))).
Proof. rewrite run_cons. reflexivity. Qed.

Lemma deliver_cache_lookup d s k :
  pointer_type_cache_ (world (deliver d s)) !! k
  = cache_after (via d) (pm_env d) s (message_of (kind d)) (pm_wparam d) !! k.
Proof. rewrite deliver_world. reflexivity. Qed.

Lemma deliver_g_GetPointerType d s :
  g_GetPointerType (world (deliver d s)) = g_GetPointerType s.
Proof. rewrite deliver_world. reflexivity. Qed.

Lemma deliver_routed d s via message :
  routed via (world (deliver d s)) message = routed via s message.
Proof. rewrite deliver_world. reflexivity. Qed.

Lemma run_cache_other_identifiers (ds : list PointerMessage) (s : World) (k : Z) :
  Forall (λ d, pointer_id d ≠ k) ds →
  pointer_type_cache_ (world (run ds s)) !! k = pointer_type_cache_ s !! k.
Proof.
  intros H. induction ds as [|d ds IH] using rev_ind; [done|].
  apply Forall_app in H as [Hds Hd]. rewrite Forall_singleton in Hd.
  rewrite run_snoc_cache, cache_after_lookup.
  rewrite decide_False by exact Hd. by apply IH.
Qed.

(** X1: messages that carry other identifiers never change the entry of an
    identifier, whatever their kind, path or outcome. *)
Theorem other_identifiers_leave_entry_alone (ds : list PointerMessage) (s : World) (k : Z) :
  Forall (λ d, pointer_id d ≠ k) ds →
  pointer_type_cache_ (world (run ds s)) !! k = pointer_type_cache_ s !! k.
Proof.
  intros H. induction ds as [|d ds IH] using rev_ind; [done|].
  apply Forall_app in H as [Hds Hd]. rewrite Forall_singleton in Hd.
  rewrite run_snoc_cache, cache_after_lookup.
  case_decide as Hk; [by destruct Hd | by apply IH].
Qed.

Lemma other_identifiers_leave_entry_alone_witness :
  let ds := [top Down 7 (env_with (Some PT_MOUSE) None); top Leave 9 quiet_env;
             child Update 7 (env_with (Some PT_MOUSE) None)] in
  let s := set_pointer_type_cache_ {[8 := PT_PEN]} ready_world in
  Forall (λ d, pointer_id d ≠ 8) ds
  ∧ pointer_type_cache_ (world (run ds s)) !! 8 = Some PT_PEN.
Proof.
  assert (Forall (λ d, pointer_id d ≠ 8)
            [top Down 7 (env_with (Some PT_MOUSE) None); top Leave 9 quiet_env;
             child Update 7 (env_with (Some PT_MOUSE) None)]) as H
    by (repeat first [apply List.Forall_nil | apply List.Forall_cons; [vm_compute; discriminate|]]).
  split; [exact H|].
  exact (other_identifiers_leave_entry_alone _
           (set_pointer_type_cache_ {[8 := PT_PEN]} ready_world) 8 H).
Defined.

Lemma run_type_queries_nil ds s :
  g_GetPointerType s = None →
  type_queries (out (run ds s)) = [] ∧ pen_queries (out (run ds s)) = [].
Proof.
  intros Hg. induction ds as [|d ds IH]; [done|].
  rewrite run_out_cons, type_queries_app, pen_queries_app.
  destruct IH as [-> ->]. unfold deliver.
  rewrite dispatch_type_queries, dispatch_pen_queries, HandlePointerMessage_pen_queries, Hg.
  destruct (routed _ s _); done.
Qed.

(** X5: without the device-type entry point the platform is never queried
    and the table never gains or changes an entry: whatever the messages,
    an entry found afterwards was there before, with the same value. *)
Theorem unresolved_capability_never_queries (ds : list PointerMessage) (s : World) :
  g_GetPointerType s = None →
  type_queries (out (run ds s)) = []
  ∧ pen_queries (out (run ds s)) = []
  ∧ ∀ k v, pointer_type_cache_ (world (run ds s)) !! k = Some v →
           pointer_type_cache_ s !! k = Some v.
Proof.
  intros Hg. split; [by apply run_type_queries_nil|]. split; [by apply run_type_queries_nil|].
  induction ds as [|d ds IH] using rev_ind; [done|].
  intros k v. rewrite run_snoc_cache, cache_after_lookup, run_g_GetPointerType, Hg.
  case_decide; [|apply IH].
  destruct (routed _ _ _); [apply IH|].
  destruct (bool_decide _); [done | apply IH].
Qed.

Lemma unresolved_capability_never_queries_witness :
  let ds := [top Down 5 (env_with (Some PT_PEN) (Some pen_600));
             child Update 5 (env_with (Some PT_PEN) (Some pen_600))] in
  g_GetPointerType initial_world = None
  ∧ type_queries (out (run ds initial_world)) = []
  ∧ pen_queries (out (run ds initial_world)) = [].
Proof.
  split; [reflexivity|].
  pose proof (unresolved_capability_never_queries
                [top Down 5 (env_with (Some PT_PEN) (Some pen_600));
                 child Update 5 (env_with (Some PT_PEN) (Some pen_600))]
                initial_world eq_refl) as (Hq & Hp & _).
  split; [exact Hq | exact Hp].
Defined.

(** X11: on the top-level path a contact leaves no trace: after any messages
    for one identifier followed by its leave, the table is the table from
    before with that identifier removed. *)
Theorem contact_is_cleaned_up (ds : list PointerMessage) (leave : PointerMessage)
    (s : World) (id : Z) :
  Forall (λ d, pointer_id d = id) ds →
  via leave = TopLevel → kind leave = Leave → pointer_id leave = id →
  pointer_type_cache_ (world (run (ds ++ [leave]) s)) = delete id (pointer_type_cache_ s).
Proof.
  intros Hds Hvia Hkind Hid. apply map_eq. intros k.
  rewrite run_snoc_cache, cache_after_lookup. fold (pointer_id leave).
  rewrite Hid, Hvia, Hkind.
  replace (routed TopLevel (world (run ds s)) (message_of Leave)) with false
    by (vm_compute; reflexivity).
  rewrite bool_decide_eq_true_2 by done.
  case_decide as Hk.
  - subst k. by rewrite lookup_delete_eq.
  - rewrite lookup_delete_ne by done.
    apply run_cache_other_identifiers.
    eapply Forall_impl; [exact Hds|]. intros d Hd. cbn in Hd. congruence.
Qed.

Lemma contact_is_cleaned_up_witness :
  let touch := env_with (Some PT_TOUCH) None in
  let ds := [top Enter 9 touch; top Down 9 touch; top Update 9 touch; top Up 9 touch] in
  let s := set_pointer_type_cache_ {[8 := PT_PEN]} ready_world in
  Forall (λ d, pointer_id d = 9) ds
  ∧ pointer_type_cache_ (world (run (ds ++ [top Leave 9 quiet_env]) s))
    = delete 9 (pointer_type_cache_ s).
Proof.
  assert (Forall (λ d, pointer_id d = 9)
            [top Enter 9 (env_with (Some PT_TOUCH) None);
             top Down 9 (env_with (Some PT_TOUCH) None);
             top Update 9 (env_with (Some PT_TOUCH) None);
             top Up 9 (env_with (Some PT_TOUCH) None)]) as H
    by (repeat first [apply List.Forall_nil | apply List.Forall_cons; [reflexivity|]]).
  split; [exact H|].
  exact (contact_is_cleaned_up _ (top Leave 9 quiet_env)
           (set_pointer_type_cache_ {[8 := PT_PEN]} ready_world) 9 H eq_refl eq_refl eq_refl).
Defined.

(** X12: on the subclass path no message ever removes an entry, a leave
    included: what is in the table stays in the table. *)
Theorem subclass_path_never_removes (ds : list PointerMessage) (s : World) (k : Z) :
  Forall (λ d, via d = ChildView) ds →
  is_Some (pointer_type_cache_ s !! k) →
  is_Some (pointer_type_cache_ (world (run ds s)) !! k).
Proof.
  intros H Hk. induction ds as [|d ds IH] using rev_ind; [done|].
  apply Forall_app in H as [Hds Hd]. rewrite Forall_singleton in Hd.
  specialize (IH Hds).
  rewrite run_snoc_cache, cache_after_lookup, Hd.
  case_decide; [|done].
  destruct (routed ChildView _ _).
  - destruct (g_GetPointerType _); [|done].
    destruct (os_GetPointerType _ _); [by eexists | done].
  - rewrite bool_decide_eq_false_2 by (intros [? _]; done). done.
Qed.

Lemma subclass_path_never_removes_witness :
  let ds := [child Down 5 (env_with (Some PT_TOUCH) None); child Leave 5 (env_with None None)] in
  let s := set_pointer_type_cache_ {[5 := PT_PEN]} ready_world in
  Forall (λ d, via d = ChildView) ds
  ∧ is_Some (pointer_type_cache_ s !! 5)
  ∧ is_Some (pointer_type_cache_ (world (run ds s)) !! 5).
Proof.
  assert (Forall (λ d, via d = ChildView)
            [child Down 5 (env_with (Some PT_TOUCH) None);
             child Leave 5 (env_with None None)]) as H
    by (repeat first [apply List.Forall_nil | apply List.Forall_cons; [reflexivity|]]).
  assert (is_Some (pointer_type_cache_
                     (set_pointer_type_cache_ {[5 := PT_PEN]} ready_world) !! 5)) as Hk
    by (eexists; reflexivity).
  split; [exact H|]. split; [exact Hk|].
  exact (subclass_path_never_removes _ _ 5 H Hk).
Defined.

Lemma run_cache_unchanged_entry (ds : list PointerMessage) (s : World) (id : Z) :
  Forall (leaves_entry id) ds →
  pointer_type_cache_ (world (run ds s)) !! id = pointer_type_cache_ s !! id.
Proof.
  intros H. induction ds as [|d ds IH] using rev_ind; [done|].
  apply Forall_app in H as [Hds Hd]. rewrite Forall_singleton in Hd.
  rewrite run_snoc_cache, cache_after_lookup. fold (pointer_id d).
  case_decide as Hid; [|by apply IH].
  destruct Hd as [Hd|[Hk Hfail]]; [done|].
  rewrite Hfail.
  destruct (routed _ _ _).
  - destruct (g_GetPointerType _); by apply IH.
  - rewrite bool_decide_eq_false_2; [by apply IH|].
    intros [_ Hm]. apply Hk. by apply (message_of_inj _ Leave).
Qed.

(** X13: the stored type is the one the most recent successful query
    answered: after a message that records an identifier with type [ty],
    followed only by messages that carry other identifiers or whose query
    fails, the entry is [ty] reduced to 32 bits. *)
Theorem entry_is_latest_successful_type (pre post : list PointerMessage)
    (d : PointerMessage) (s : World) (id ty : Z) :
  records s id d →
  os_GetPointerType (pm_env d) id = Some ty →
  Forall (leaves_entry id) post →
  pointer_type_cache_ (world (run (pre ++ d :: post) s)) !! id = Some (UINT32 ty).
Proof.
  intros (Hid & Hk & Hreach & [f Hg] & _) Hty Hpost.
  change (pre ++ d :: post) with (pre ++ [d] ++ post). rewrite app_assoc.
  rewrite run_app. cbn [world].
  rewrite run_cache_unchanged_entry by done.
  rewrite run_snoc_cache, cache_after_lookup, run_routed, run_g_GetPointerType.
  fold (pointer_id d). rewrite decide_True by done.
  apply routed_message_of in Hreach. rewrite Hreach, Hg, Hty. done.
Qed.

Lemma entry_is_latest_successful_type_witness :
  let pre := [top Down 4 (env_with (Some PT_PEN) (Some pen_600))] in
  let d := child Update 4 (env_with (Some PT_TOUCH) None) in
  let post := [top Up 4 (env_with None None); top Leave 6 quiet_env] in
  records ready_world 4 d
  ∧ os_GetPointerType (pm_env d) 4 = Some PT_TOUCH
  ∧ Forall (leaves_entry 4) post
  ∧ pointer_type_cache_ (world (run (pre ++ d :: post) ready_world)) !! 4 = Some PT_TOUCH.
Proof.
  assert (records ready_world 4 (child Update 4 (env_with (Some PT_TOUCH) None))) as Hr.
  { split; [reflexivity|]. split; [discriminate|]. split; [reflexivity|].
    split; eexists; reflexivity. }
  assert (Forall (leaves_entry 4) [top Up 4 (env_with None None); top Leave 6 quiet_env]) as Hp.
  { apply List.Forall_cons; [right; split; [discriminate | reflexivity]|].
    apply List.Forall_cons; [left; vm_compute; discriminate|]. apply List.Forall_nil. }
  split; [exact Hr|]. split; [reflexivity|]. split; [exact Hp|].
  exact (entry_is_latest_successful_type
           [top Down 4 (env_with (Some PT_PEN) (Some pen_600))]
           [top Up 4 (env_with None None); top Leave 6 quiet_env]
           (child Update 4 (env_with (Some PT_TOUCH) None))
           ready_world 4 PT_TOUCH Hr eq_refl Hp).
Defined.


(** ** Events and queries *)

Lemma run_forwarded_bind ds s :
  forwarded (out (run ds s)) = ds ≫= (λ d, forwarded (out (deliver d s))).
Proof.
  induction ds as [|d ds IH]; [done|].
  rewrite run_out_cons, forwarded_app, IH. reflexivity.
Qed.

(** X7: the events of a sequence are the events of its messages, in the
    order of the messages and each as if it were handled alone; so there are
    never more events than pointer-downs in the sequence. *)
Theorem events_follow_the_downs (ds : list PointerMessage) (s : World) :
  forwarded (out (run ds s)) = ds ≫= (λ d, forwarded (out (deliver d s)))
  ∧ (length (forwarded (out (run ds s))) ≤ length (filter (λ d, kind d = Down) ds))%nat
  ∧ (length (channel_messages (out (run ds s))) ≤ length (forwarded (out (run ds s))))%nat.
Proof.
  split; [apply run_forwarded_bind|]. split.
  - rewrite run_forwarded_bind. induction ds as [|d ds IH]; [done|].
    cbn [mbind list_bind]. rewrite length_app, filter_cons.
    pose proof (dispatch_forwarded_length (via d) (pm_env d) (pm_hwnd d)
                  (message_of (kind d)) (pm_wparam d) (pm_lparam d) s) as Hle.
    fold (deliver d) in Hle.
    destruct (decide (kind d = Down)) as [Hk|Hk].
    + cbn [length]. lia.
    + unfold deliver in *. rewrite dispatch_not_down in *
        by (intros Hm; by apply message_of_down in Hm).
      cbn [length]. lia.
  - rewrite run_channel_messages.
    destruct (pointer_channel_ s); [rewrite length_fmap|cbn]; lia.
Qed.

(** X6: the pen query is made at most once for a message, and only after a
    device-type query that answered Pen with the pen entry point resolved. *)
Theorem pen_query_only_for_pens via env hwnd message wparam lparam s i :
  i ∈ pen_queries (out (dispatch via env hwnd message wparam lparam s)) →
  i = GET_POINTERID_WPARAM wparam
  ∧ pen_queries (out (dispatch via env hwnd message wparam lparam s)) = [i]
  ∧ i ∈ type_queries (out (dispatch via env hwnd message wparam lparam s))
  ∧ is_Some (g_GetPointerPenInfo s)
  ∧ ∃ pointerType, os_GetPointerType env i = Some pointerType ∧ UINT32 pointerType = PT_PEN.
Proof.
  rewrite dispatch_pen_queries, dispatch_type_queries, HandlePointerMessage_pen_queries.
  destruct (routed via s message); [|by intros ?%elem_of_nil].
  destruct (g_GetPointerType s); [|by intros ?%elem_of_nil].
  destruct (os_GetPointerType env (GET_POINTERID_WPARAM wparam)) as [ty|] eqn:Hty;
    [|by intros ?%elem_of_nil].
  destruct (bool_decide_reflect (UINT32 ty = PT_PEN)) as [Hpen|]; [|by intros ?%elem_of_nil].
  destruct (bool_decide_reflect (is_Some (g_GetPointerPenInfo s))) as [Hgp|];
    [|by intros ?%elem_of_nil].
  cbn [andb]. intros ->%list_elem_of_singleton.
  split; [done|]. split; [done|]. split; [by apply list_elem_of_singleton|].
  split; [done|]. eauto.
Qed.

Lemma pen_query_only_for_pens_witness :
  let r := dispatch ChildView (env_with (Some PT_PEN) (Some pen_600)) 3001
             WM_POINTERUPDATE 5 0 ready_world in
  5 ∈ pen_queries (out r)
  ∧ pen_queries (out r) = [5]
  ∧ 5 ∈ type_queries (out r).
Proof.
  assert (5 ∈ pen_queries (out (dispatch ChildView (env_with (Some PT_PEN) (Some pen_600))
                                  3001 WM_POINTERUPDATE 5 0 ready_world))) as H
    by (vm_compute; left).
  split; [exact H|].
  pose proof (pen_query_only_for_pens ChildView (env_with (Some PT_PEN) (Some pen_600)) 3001
                WM_POINTERUPDATE 5 0 ready_world 5 H) as (_ & Hp & Hq & _).
  split; [exact Hp | exact Hq].
Defined.

(** ** The payload *)

Lemma static_cast_int_range z : - 2 ^ 31 ≤ static_cast_int z < 2 ^ 31.
Proof.
  unfold static_cast_int.
  pose proof (Z.mod_pos_bound (z + 2 ^ 31) (2 ^ 32)). lia.
Qed.

Lemma static_cast_int_wrap z : 2 ^ 31 ≤ z < 2 ^ 32 → static_cast_int z = z - 2 ^ 32.
Proof.
  intros Hz. unfold static_cast_int.
  assert ((z + 2 ^ 31) mod 2 ^ 32 = z - 2 ^ 31) as ->; [|lia].
  symmetry. apply (Z.mod_unique _ _ 1); lia.
Qed.

Lemma static_cast_int_back z : 0 ≤ z < 2 ^ 32 → UINT32 (static_cast_int z) = z.
Proof.
  intros Hz. unfold UINT32.
  destruct (decide (z < 2 ^ 31)).
  - rewrite static_cast_int_small by lia. apply Z.mod_small. lia.
  - rewrite static_cast_int_wrap by lia.
    symmetry. apply (Z.mod_unique _ _ (-1)); lia.
Qed.

Lemma event_in_range via env hwnd message wparam lparam s ev :
  ev ∈ forwarded (out (dispatch via env hwnd message wparam lparam s)) →
  0 ≤ ev_pointerId ev < 2 ^ 16
  ∧ 0 ≤ ev_pointerType ev < 2 ^ 32
  ∧ 0 ≤ ev_pressure ev < 2 ^ 32.
Proof.
  intros (_ & Hc)%dispatch_forwarded_elem.
  apply classification_Some in Hc as (_ & _ & ty & _ & ->). cbn.
  split; [apply LOWORD_range|]. split; [apply UINT32_range | apply pen_pressure_range].
Qed.

(** X8: the payload determines the event: two events the classifier
    produces that are sent as equal maps are the same event, so the three
    integers can be read back by the receiver without loss. *)
Theorem payload_determines_event via env hwnd message wparam lparam s
    via' env' hwnd' message' wparam' lparam' s' ev ev' :
  ev ∈ forwarded (out (dispatch via env hwnd message wparam lparam s)) →
  ev' ∈ forwarded (out (dispatch via' env' hwnd' message' wparam' lparam' s')) →
  payload ev = payload ev' →
  ev = ev'
  ∧ UINT32 <$> (payload ev !! EncodableString "pointerId"
                ≫= λ v, match v with EncodableInt i => Some i | _ => None end)
    = Some (ev_pointerId ev)
  ∧ UINT32 <$> (payload ev !! EncodableString "pointerType"
                ≫= λ v, match v with EncodableInt i => Some i | _ => None end)
    = Some (ev_pointerType ev)
  ∧ UINT32 <$> (payload ev !! EncodableString "pressure"
                ≫= λ v, match v with EncodableInt i => Some i | _ => None end)
    = Some (ev_pressure ev).
Proof.
  intros Hev Hev' Heq.
  pose proof (event_in_range _ _ _ _ _ _ _ _ Hev) as (Hi & Ht & Hp).
  pose proof (event_in_range _ _ _ _ _ _ _ _ Hev') as (Hi' & Ht' & Hp').
  pose proof (payload_lookup ev) as (Li & Lt & Lp).
  pose proof (payload_lookup ev') as (Li' & Lt' & Lp').
  rewrite Heq in Li, Lt, Lp.
  rewrite Li' in Li. rewrite Lt' in Lt. rewrite Lp' in Lp.
  injection Li as Li. injection Lt as Lt. injection Lp as Lp.
  apply (f_equal UINT32) in Li, Lt, Lp.
  rewrite !static_cast_int_back in Li, Lt, Lp by lia.
  split.
  - destruct ev, ev'. cbn in *. congruence.
  - rewrite Heq, Li', Lt', Lp'. cbn.
    rewrite !static_cast_int_back by lia. rewrite Li, Lt, Lp. done.
Qed.

Lemma payload_determines_event_witness :
  let env := env_with (Some PT_PEN) (Some pen_600) in
  let ev := mkEvent 5 PT_PEN 600 in
  ev ∈ forwarded (out (dispatch TopLevel env 3000 WM_POINTERDOWN 5 0 ready_world))
  ∧ ev ∈ forwarded (out (dispatch ChildView env 3001 WM_POINTERDOWN 65541 0 ready_world))
  ∧ payload ev = payload ev
  ∧ UINT32 <$> (payload ev !! EncodableString "pressure"
                ≫= λ v, match v with EncodableInt i => Some i | _ => None end)
    = Some 600.
Proof.
  assert (mkEvent 5 PT_PEN 600
          ∈ forwarded (out (dispatch TopLevel (env_with (Some PT_PEN) (Some pen_600))
                              3000 WM_POINTERDOWN 5 0 ready_world))) as H1
    by (vm_compute; left).
  assert (mkEvent 5 PT_PEN 600
          ∈ forwarded (out (dispatch ChildView (env_with (Some PT_PEN) (Some pen_600))
                              3001 WM_POINTERDOWN 65541 0 ready_world))) as H2
    by (vm_compute; left).
  split; [exact H1|]. split; [exact H2|]. split; [reflexivity|].
  exact (proj2 (proj2 (proj2 (payload_determines_event _ _ _ _ _ _ _ _ _ _ _ _ _ _ _ _
                                 H1 H2 eq_refl)))).
Defined.

(** X9: the integers on the channel.  The identifier is sent exactly as the
    low word of [wparam], never negative.  The type the platform answered and
    the pressure the pen query answered are sent unchanged when the value is
    below 2^31, and a 32-bit value from 2^31 on arrives as that value minus
    2^32.  Without a successful pen query the pressure sent is 0. *)
Theorem payload_integers via env hwnd message wparam lparam s m :
  m ∈ channel_messages (out (dispatch via env hwnd message wparam lparam s)) →
  let pointerId := GET_POINTERID_WPARAM wparam in
  mc_args m !! EncodableString "pointerId" = Some (EncodableInt pointerId)
  ∧ 0 ≤ pointerId < 2 ^ 16
  ∧ (∃ ty, os_GetPointerType env pointerId = Some ty
           ∧ mc_args m !! EncodableString "pointerType"
             = Some (EncodableInt (static_cast_int (UINT32 ty)))
           ∧ (0 ≤ ty < 2 ^ 31 → static_cast_int (UINT32 ty) = ty)
           ∧ (2 ^ 31 ≤ ty < 2 ^ 32 → static_cast_int (UINT32 ty) = ty - 2 ^ 32)
           ∧ (∀ penInfo,
                UINT32 ty = PT_PEN → is_Some (g_GetPointerPenInfo s) →
                os_GetPointerPenInfo env pointerId = Some penInfo →
                (0 ≤ pressure penInfo < 2 ^ 31 →
                 mc_args m !! EncodableString "pressure"
                 = Some (EncodableInt (pressure penInfo)))
                ∧ (2 ^ 31 ≤ pressure penInfo < 2 ^ 32 →
                   mc_args m !! EncodableString "pressure"
                   = Some (EncodableInt (pressure penInfo - 2 ^ 32))))
           ∧ (UINT32 ty ≠ PT_PEN ∨ g_GetPointerPenInfo s = None
              ∨ os_GetPointerPenInfo env pointerId = None →
              mc_args m !! EncodableString "pressure" = Some (EncodableInt 0)))
  ∧ ∃ p, mc_args m !! EncodableString "pressure" = Some (EncodableInt p)
         ∧ - 2 ^ 31 ≤ p < 2 ^ 31.
Proof.
  intros Hm. cbn zeta.
  rewrite dispatch_channel_messages in Hm.
  destruct (pointer_channel_ s) as [channel|]; [|by apply elem_of_nil in Hm].
  apply list_elem_of_fmap in Hm as (ev & -> & Hev).
  apply dispatch_forwarded_elem in Hev as (_ & Hc).
  apply classification_Some in Hc as (_ & _ & ty & Hty & ->).
  pose proof (LOWORD_range wparam) as Hid. fold (GET_POINTERID_WPARAM wparam) in Hid.
  cbn [mc_args].
  match goal with |- context [payload ?e] => pose proof (payload_lookup e) as (Li & Lt & Lp) end.
  cbn [ev_pointerId ev_pointerType ev_pressure] in Li, Lt, Lp.
  rewrite static_cast_int_small in Li by lia.
  split; [exact Li|]. split; [exact Hid|]. split.
  - exists ty. split; [done|]. split; [exact Lt|]. split; [|split; [|split]].
    + intros H. unfold UINT32. rewrite Z.mod_small by lia. apply static_cast_int_small. lia.
    + intros H. unfold UINT32. rewrite Z.mod_small by lia. by apply static_cast_int_wrap.
    + intros penInfo Hpen Hgp Hinfo.
      assert (pen_pressure env s (GET_POINTERID_WPARAM wparam) (UINT32 ty)
              = UINT32 (pressure penInfo)) as Hpp.
      { unfold pen_pressure. rewrite Hinfo.
        rewrite !bool_decide_eq_true_2 by done. done. }
      rewrite Lp, Hpp. split; intros Hrange; do 2 f_equal.
      * unfold UINT32. rewrite Z.mod_small by lia. apply static_cast_int_small. lia.
      * unfold UINT32. rewrite Z.mod_small by lia. by apply static_cast_int_wrap.
    + intros Hno. rewrite Lp. do 2 f_equal.
      assert (pen_pressure env s (GET_POINTERID_WPARAM wparam) (UINT32 ty) = 0) as ->; [|done].
      unfold pen_pressure. destruct Hno as [Hno|[Hno|Hno]].
      * by rewrite (bool_decide_eq_false_2 _ Hno).
      * rewrite Hno. rewrite (bool_decide_eq_false_2 (is_Some None)) by (intros [? ?]; done).
        by rewrite andb_false_r.
      * rewrite Hno. by destruct (_ && _).
  - eexists. split; [exact Lp | apply static_cast_int_range].
Qed.

(** X9 at a pen whose pressure has bit 31 set: the identifier is the low word,
    and the pressure 2^32 - 1 arrives as -1. *)
Lemma payload_integers_witness :
  let pen := mkPenInfo 0 1 4294967295 0 0 0 in
  let env := env_with (Some PT_PEN) (Some pen) in
  let m := mkMethodCall "winote/pointer_type" "onPointerTypeDetected"
             (payload (mkEvent 5 PT_PEN 4294967295)) in
  m ∈ channel_messages (out (dispatch TopLevel env 3000 WM_POINTERDOWN 65541 0 ready_world))
  ∧ mc_args m !! EncodableString "pointerId" = Some (EncodableInt 5)
  ∧ mc_args m !! EncodableString "pressure" = Some (EncodableInt (-1)).
Proof.
  assert (mkMethodCall "winote/pointer_type" "onPointerTypeDetected"
            (payload (mkEvent 5 PT_PEN 4294967295))
          ∈ channel_messages
              (out (dispatch TopLevel
                      (env_with (Some PT_PEN) (Some (mkPenInfo 0 1 4294967295 0 0 0))) 3000
                      WM_POINTERDOWN 65541 0 ready_world))) as H
    by (vm_compute; left).
  split; [exact H|].
  pose proof (payload_integers _ _ _ _ _ _ _ _ H) as (Hid & _ & (ty & Hty & _ & _ & _ & Hpen & _) & _).
  split; [exact Hid|].
  injection Hty as <-.
  exact (proj2 (Hpen (mkPenInfo 0 1 4294967295 0 0 0) eq_refl (ex_intro _ 1002 eq_refl) eq_refl)
           ltac:(cbn; lia)).
Defined.

(** ** Bounds on the contact table *)

Lemma cache_after_in_range via env s message wparam :
  cache_in_range (pointer_type_cache_ s) →
  cache_in_range (cache_after via env s message wparam).
Proof.
  intros H k v. rewrite cache_after_lookup.
  case_decide as Hk; [|apply H].
  destruct (routed via s message).
  - destruct (g_GetPointerType s); [|apply H].
    destruct (os_GetPointerType env k) as [ty|]; [|apply H].
    intros [= <-]. subst k. split; [apply LOWORD_range | apply UINT32_range].
  - destruct (bool_decide _); [done | apply H].
Qed.

Lemma cache_in_range_size (c : gmap Z Z) : cache_in_range c → Z.of_nat (size c) ≤ 2 ^ 16.
Proof.
  intros H.
  assert (size c ≤ Z.to_nat (2 ^ 16))%nat as Hle; [|lia].
  rewrite <- size_dom.
  transitivity (size (list_to_set (C := gset Z) (seqZ 0 (2 ^ 16)))).
  - apply subseteq_size. intros k Hk.
    apply elem_of_dom in Hk as [v Hv]. apply H in Hv as [Hv _].
    apply elem_of_list_to_set, elem_of_seqZ. lia.
  - rewrite size_list_to_set by apply NoDup_seqZ. by rewrite length_seqZ.
Qed.


(** ** Set-up and tear-down *)






Lemma OnDestroy_eq s :
  OnDestroy s = mkResult () (set_flutter_controller_ false s) [Win32Window_OnDestroy].
Proof.
  unfold OnDestroy. mstep.
  destruct (flutter_controller_ s) eqn:H; mstep; [done|].
  f_equal. destruct s; cbn in *; by subst.
Qed.

(** X18: [OnDestroy] drops the controller and nothing else.  Afterwards the
    top-level handler no longer offers messages to the runtime: every message
    but [WM_FONTCHANGE] goes straight to the base window, and [WM_FONTCHANGE]
    dereferences the null controller.  The channel member is left in place,
    so pointer messages are classified and forwarded exactly as before. *)
Theorem after_OnDestroy via env hwnd message wparam lparam s :
  let s' := world (OnDestroy s) in
  let top := dispatch TopLevel env hwnd message wparam lparam s' in
  s' = set_flutter_controller_ false s
  ∧ world (OnDestroy s') = s'
  ∧ next_handlers (out top)
    = (if decide (message = WM_FONTCHANGE) then []
       else [Win32Window_MessageHandler hwnd message wparam lparam])
  ∧ (val top = NullDereference ↔ message = WM_FONTCHANGE)
  ∧ forwarded (out (dispatch via env hwnd message wparam lparam s'))
    = forwarded (out (dispatch via env hwnd message wparam lparam s))
  ∧ channel_messages (out (dispatch via env hwnd message wparam lparam s'))
    = channel_messages (out (dispatch via env hwnd message wparam lparam s))
  ∧ pointer_type_cache_ (world (dispatch via env hwnd message wparam lparam s'))
    = pointer_type_cache_ (world (dispatch via env hwnd message wparam lparam s)).
Proof.
  cbn zeta. rewrite !OnDestroy_eq. cbn [world].
  split; [done|]. split; [done|].
  rewrite dispatch_next_handlers, !dispatch_channel_messages, !dispatch_forwarded, !dispatch_world.
  rewrite dispatch_eq. cbn [val].
  unfold passed_on, outcome_of. cbn [flutter_controller_ set_flutter_controller_].
  split; [case_decide; done|]. split; [case_decide; split; done|].
  done.
Qed.

Section LifecycleFacts.

Variable show_HWND : HWND → string.
Variable show_WNDPROC : WNDPROC → string.

Lemma SubclassFlutterView_eq ce s :
  SubclassFlutterView show_HWND show_WNDPROC ce s
  = match flutter_view_hwnd_ s with
    | None =>
        mkResult () s
          [LogLine "SubclassFlutterView: ERROR - Flutter view HWND is null, cannot subclass"]
    | Some view =>
        match ans_SetWindowLongPtr ce with
        | Some proc =>
            mkResult ()
              (set_original_flutter_view_proc_ (Some proc)
                 (set_g_original_flutter_view_proc (Some proc) s))
              [LogLine ("SubclassFlutterView: Attempting to subclass HWND " +:+ show_HWND view);
               SetWindowLongPtr_WNDPROC view;
               LogLine ("SubclassFlutterView: SUCCESS - Flutter view subclassed (HWND: "
                        +:+ show_HWND view +:+ ", Original proc: "
                        +:+ show_WNDPROC proc +:+ ")")]
        | None =>
            mkResult () (set_g_original_flutter_view_proc None s)
              [LogLine ("SubclassFlutterView: Attempting to subclass HWND " +:+ show_HWND view);
               SetWindowLongPtr_WNDPROC view;
               LogLine ("SubclassFlutterView: FAILED - Error code: "
                        +:+ pretty (ans_GetLastError ce))]
        end
    end.
Proof.
  unfold SubclassFlutterView. mstep.
  destruct (flutter_view_hwnd_ s); mstep; [|done].
  destruct (ans_SetWindowLongPtr ce); mstep; done.
Qed.

Lemma OnCreate_eq ce s :
  OnCreate show_HWND show_WNDPROC ce s
  = if negb (ans_Win32Window_OnCreate ce) then mkResult false s [Win32Window_OnCreate]
    else if negb (ans_engine ce) || negb (ans_view ce)
    then mkResult false (set_flutter_controller_ true s)
           [Win32Window_OnCreate; CreateFlutterViewController]
    else
      let s1 := set_flutter_view_hwnd_ (ans_GetNativeWindow ce)
                  (set_pointer_channel_ (Some "winote/pointer_type")
                     (set_flutter_controller_ true s)) in
      let sub := SubclassFlutterView show_HWND show_WNDPROC ce s1 in
      mkResult true (world sub)
        ([Win32Window_OnCreate; CreateFlutterViewController; RegisterPlugins;
          LogLine "OnCreate: MethodChannel 'winote/pointer_type' created";
          SetChildContent (ans_GetNativeWindow ce)]
         ++ out sub ++ [SetNextFrameCallback; ForceRedraw]).
Proof.
  unfold OnCreate. mstep.
  destruct (ans_Win32Window_OnCreate ce); mstep; [|done].
  destruct (ans_engine ce), (ans_view ce); mstep; done.
Qed.

End LifecycleFacts.

(** X16: how [OnCreate] ends.  It returns true exactly when the base
    window, the engine and the view are all there, whether or not the view
    could be subclassed.  If the base window fails nothing is touched; if the
    engine or the view is missing the controller is kept but no channel is
    made; on success the channel "winote/pointer_type" exists, the native
    window is stored, and the procedure swap is attempted exactly once if
    that window is non-null and not at all otherwise. *)
Theorem OnCreate_outcome (show_HWND : HWND → string) (show_WNDPROC : WNDPROC → string)
    (ce : CreateEnv) (s : World) :
  let r := OnCreate show_HWND show_WNDPROC ce s in
  val r = ans_Win32Window_OnCreate ce && ans_engine ce && ans_view ce
  ∧ pointer_type_cache_ (world r) = pointer_type_cache_ s
  ∧ capabilities (world r) = capabilities s
  ∧ (ans_Win32Window_OnCreate ce = false → world r = s ∧ out r = [Win32Window_OnCreate])
  ∧ (val r = false →
       pointer_channel_ (world r) = pointer_channel_ s
       ∧ subclass_installs (out r) = []
       ∧ g_original_flutter_view_proc (world r) = g_original_flutter_view_proc s)
  ∧ (val r = true →
       flutter_controller_ (world r) = true
       ∧ pointer_channel_ (world r) = Some "winote/pointer_type"
       ∧ flutter_view_hwnd_ (world r) = ans_GetNativeWindow ce
       ∧ subclass_installs (out r) = option_list (ans_GetNativeWindow ce)
       ∧ g_original_flutter_view_proc (world r)
         = match ans_GetNativeWindow ce with
           | Some _ => ans_SetWindowLongPtr ce
           | None => g_original_flutter_view_proc s
           end).
Proof.
  cbn zeta. rewrite OnCreate_eq.
  destruct (ans_Win32Window_OnCreate ce); cbn [negb andb]; [|done].
  destruct (ans_engine ce), (ans_view ce); cbn [negb orb andb]; try done.
  cbn zeta. rewrite SubclassFlutterView_eq.
  cbn [flutter_view_hwnd_ set_flutter_view_hwnd_].
  destruct (ans_GetNativeWindow ce); [destruct (ans_SetWindowLongPtr ce)|]; done.
Qed.

Lemma OnCreate_outcome_witness :
  let ce := mkCreateEnv true true true (Some 3001) None 5 in
  let r := OnCreate (λ _, "") (λ _, "") ce initial_world in
  val r = true
  ∧ pointer_channel_ (world r) = Some "winote/pointer_type"
  ∧ subclass_installs (out r) = [3001]
  ∧ g_original_flutter_view_proc (world r) = None.
Proof.
  pose proof (OnCreate_outcome (λ _, "") (λ _, "")
                (mkCreateEnv true true true (Some 3001) None 5) initial_world)
    as (Hv & _ & _ & _ & _ & Hok).
  split; [exact Hv|].
  destruct (Hok Hv) as (_ & Hch & _ & Hsub & Hg).
  split; [exact Hch|]. split; [exact Hsub | exact Hg].
Defined.

(** X17: after an [OnCreate] that swapped the view's procedure, every
    message on the subclass path is handed to exactly the procedure the swap
    returned, with its arguments unchanged, and that procedure's result is
    returned. *)
Theorem subclass_chains_to_previous_procedure (show_HWND : HWND → string)
    (show_WNDPROC : WNDPROC → string) (ce : CreateEnv) (s : World)
    (view : HWND) (previous : WNDPROC) env hwnd message wparam lparam :
  let created := OnCreate show_HWND show_WNDPROC ce s in
  let r := dispatch ChildView env hwnd message wparam lparam (world created) in
  val created = true →
  ans_GetNativeWindow ce = Some view →
  ans_SetWindowLongPtr ce = Some previous →
  next_handlers (out r) = [CallWindowProc previous hwnd message wparam lparam]
  ∧ val r = Returned (ans_CallWindowProc env)
  ∧ original_flutter_view_proc_ (world created) = Some previous.
Proof.
  cbn zeta. intros Hv Hview Hprev.
  rewrite dispatch_next_handlers, dispatch_eq. cbn [val]. unfold passed_on, outcome_of.
  revert Hv. rewrite OnCreate_eq.
  destruct (ans_Win32Window_OnCreate ce); cbn [negb]; [|done].
  destruct (ans_engine ce), (ans_view ce); cbn [negb orb]; try done.
  intros _. cbn zeta. rewrite SubclassFlutterView_eq.
  cbn [flutter_view_hwnd_ set_flutter_view_hwnd_]. rewrite Hview, Hprev. done.
Qed.

Lemma subclass_chains_to_previous_procedure_witness :
  let ce := mkCreateEnv true true true (Some 3001) (Some 2001) 0 in
  let created := OnCreate (λ _, "") (λ _, "") ce initial_world in
  val created = true
  ∧ ans_GetNativeWindow ce = Some 3001
  ∧ ans_SetWindowLongPtr ce = Some 2001
  ∧ next_handlers (out (dispatch ChildView quiet_env 3001 WM_POINTERUP 5 0 (world created)))
    = [CallWindowProc 2001 3001 WM_POINTERUP 5 0].
Proof.
  split; [reflexivity|]. split; [reflexivity|]. split; [reflexivity|].
  exact (proj1 (subclass_chains_to_previous_procedure (λ _, "") (λ _, "")
                  (mkCreateEnv true true true (Some 3001) (Some 2001) 0) initial_world
                  3001 2001 quiet_env 3001 WM_POINTERUP 5 0 eq_refl eq_refl eq_refl)).
Defined.

(** ** Invariants of the process *)

(** The prober leaves the members of the window and the registration alone. *)
Lemma InitializePointerApi_members ld s :
  let w := world (InitializePointerApi ld s) in
  pointer_type_cache_ w = pointer_type_cache_ s
  ∧ pointer_channel_ w = pointer_channel_ s
  ∧ flutter_controller_ w = flutter_controller_ s
  ∧ g_flutter_window w = g_flutter_window s
  ∧ g_original_flutter_view_proc w = g_original_flutter_view_proc s.
Proof.
  cbn zeta. destruct (g_pointer_api_initialized s) eqn:Hi.
  - rewrite InitializePointerApi_again by done. done.
  - rewrite InitializePointerApi_first by done.
    destruct (GetModuleHandleA ld "user32.dll"); done.
Qed.

Lemma FlutterWindow_ctor_world ld s :
  world (FlutterWindow_ctor ld s)
  = set_g_flutter_window true
      (world (InitializePointerApi ld
                (set_flutter_view_hwnd_ None
                   (set_original_flutter_view_proc_ None
                      (set_pointer_type_cache_ ∅
                         (set_pointer_channel_ None (set_flutter_controller_ false s))))))).
Proof. reflexivity. Qed.

Lemma FlutterWindow_ctor_out ld s :
  out (FlutterWindow_ctor ld s)
  = out (InitializePointerApi ld
           (set_flutter_view_hwnd_ None
              (set_original_flutter_view_proc_ None
                 (set_pointer_type_cache_ ∅
                    (set_pointer_channel_ None (set_flutter_controller_ false s)))))).
Proof. unfold FlutterWindow_ctor. mstep. by rewrite app_nil_r. Qed.

Section ProcessInvariants.

Variable show_HWND : HWND → string.
Variable show_WNDPROC : WNDPROC → string.

Lemma OnCreate_members ce s :
  let r := OnCreate show_HWND show_WNDPROC ce s in
  pointer_type_cache_ (world r) = pointer_type_cache_ s
  ∧ (pointer_channel_ (world r) = pointer_channel_ s
     ∨ pointer_channel_ (world r) = Some "winote/pointer_type")
  ∧ channel_messages (out r) = [].
Proof.
  cbn zeta. rewrite OnCreate_eq.
  destruct (ans_Win32Window_OnCreate ce); cbn [negb]; [|by auto].
  destruct (ans_engine ce), (ans_view ce); cbn [negb orb]; try by auto.
  cbn zeta. rewrite SubclassFlutterView_eq.
  cbn [flutter_view_hwnd_ set_flutter_view_hwnd_].
  destruct (ans_GetNativeWindow ce); [destruct (ans_SetWindowLongPtr ce)|]; by auto.
Qed.

Lemma step_world st s :
  world (step show_HWND show_WNDPROC st s)
  = match st with
    | Construct ld => world (FlutterWindow_ctor ld s)
    | Create ce => world (OnCreate show_HWND show_WNDPROC ce s)
    | Window via env hwnd message wparam lparam =>
        world (dispatch via env hwnd message wparam lparam s)
    | Destroy => world (OnDestroy s)
    | Destruct => world (FlutterWindow_dtor s)
    end.
Proof. destruct st; reflexivity. Qed.

Lemma step_out st s :
  out (step show_HWND show_WNDPROC st s)
  = match st with
    | Construct ld => out (FlutterWindow_ctor ld s)
    | Create ce => out (OnCreate show_HWND show_WNDPROC ce s)
    | Window via env hwnd message wparam lparam =>
        out (dispatch via env hwnd message wparam lparam s)
    | Destroy => out (OnDestroy s)
    | Destruct => out (FlutterWindow_dtor s)
    end.
Proof. destruct st; cbn [step]; mstep; by rewrite app_nil_r. Qed.

Lemma step_cache_in_range st s :
  cache_in_range (pointer_type_cache_ s) →
  cache_in_range (pointer_type_cache_ (world (step show_HWND show_WNDPROC st s))).
Proof.
  intros H. rewrite step_world.
  destruct st as [ld|ce|via env hwnd message wparam lparam| |].
  - rewrite FlutterWindow_ctor_world. cbn [pointer_type_cache_ set_g_flutter_window].
    rewrite (proj1 (InitializePointerApi_members ld _)). done.
  - by rewrite (proj1 (OnCreate_members ce s)).
  - rewrite dispatch_world. cbn [pointer_type_cache_ set_pointer_type_cache_].
    by apply cache_after_in_range.
  - rewrite OnDestroy_eq. done.
  - done.
Qed.

Lemma process_cache_in_range steps s :
  cache_in_range (pointer_type_cache_ s) →
  cache_in_range (pointer_type_cache_ (world (process show_HWND show_WNDPROC steps s))).
Proof.
  revert s. induction steps as [|st steps IH]; intros s H; [done|].
  rewrite process_cons. cbn zeta.
  pose proof (step_cache_in_range st s H) as Hst.
  destruct (val (step show_HWND show_WNDPROC st s)); cbn [world]; [by apply IH | done].
Qed.

Lemma step_channel st s :
  channel_is_winote s → channel_is_winote (world (step show_HWND show_WNDPROC st s)).
Proof.
  unfold channel_is_winote. intros H. rewrite step_world.
  destruct st as [ld|ce|via env hwnd message wparam lparam| |].
  - left. rewrite FlutterWindow_ctor_world. cbn [pointer_channel_ set_g_flutter_window].
    rewrite (proj1 (proj2 (InitializePointerApi_members ld _))). done.
  - destruct (proj1 (proj2 (OnCreate_members ce s))) as [->| ->]; [done | by right].
  - rewrite dispatch_world. done.
  - rewrite OnDestroy_eq. done.
  - done.
Qed.

Lemma step_channel_messages st s :
  channel_messages (out (step show_HWND show_WNDPROC st s))
  = match st with
    | Window via env hwnd message wparam lparam =>
        channel_messages (out (dispatch via env hwnd message wparam lparam s))
    | _ => []
    end.
Proof.
  rewrite step_out. destruct st as [ld|ce|via env hwnd message wparam lparam| |].
  - rewrite FlutterWindow_ctor_out.
    match goal with |- context [InitializePointerApi ld ?w] => generalize w end.
    intros s0. destruct (g_pointer_api_initialized s0) eqn:Hi.
    + rewrite InitializePointerApi_again by done. done.
    + rewrite InitializePointerApi_first by done.
      destruct (GetModuleHandleA ld "user32.dll"); done.
  - apply OnCreate_members.
  - done.
  - rewrite OnDestroy_eq. done.
  - done.
Qed.

Lemma process_channel_messages_elem steps s m :
  channel_is_winote s →
  m ∈ channel_messages (out (process show_HWND show_WNDPROC steps s)) →
  mc_channel m = "winote/pointer_type" ∧ mc_method m = "onPointerTypeDetected"
  ∧ ∃ ev, mc_args m = payload ev.
Proof.
  revert s. induction steps as [|st steps IH]; intros s H; [by intros ?%elem_of_nil|].
  rewrite process_cons. cbn zeta.
  assert (m ∈ channel_messages (out (step show_HWND show_WNDPROC st s)) →
          mc_channel m = "winote/pointer_type" ∧ mc_method m = "onPointerTypeDetected"
          ∧ ∃ ev, mc_args m = payload ev) as Hstep.
  { rewrite step_channel_messages.
    destruct st as [ld|ce|via env hwnd message wparam lparam| |];
      try by intros ?%elem_of_nil.
    rewrite dispatch_channel_messages.
    destruct H as [->| ->]; [by intros ?%elem_of_nil|].
    intros (ev & -> & _)%list_elem_of_fmap. eauto. }
  destruct (val (step show_HWND show_WNDPROC st s)); cbn [out]; [|done].
  rewrite channel_messages_app, elem_of_app. intros [Hm|Hm]; [by apply Hstep|].
  apply (IH (world (step show_HWND show_WNDPROC st s))); [by apply step_channel | done].
Qed.

End ProcessInvariants.

(** X10: the contact table is bounded.  Through construction, set-up, any
    window messages on either path and tear-down, every key stays a 16-bit
    identifier and every value a 32-bit code, so the table never holds more
    than 65536 entries, with or without leave messages. *)
Theorem contact_table_is_bounded (show_HWND : HWND → string) (show_WNDPROC : WNDPROC → string)
    (steps : list Step) (s : World) :
  cache_in_range (pointer_type_cache_ s) →
  let c := pointer_type_cache_ (world (process show_HWND show_WNDPROC steps s)) in
  cache_in_range c ∧ Z.of_nat (size c) ≤ 2 ^ 16.
Proof.
  intros H. cbn zeta.
  pose proof (process_cache_in_range show_HWND show_WNDPROC steps s H).
  split; [done | by apply cache_in_range_size].
Qed.

Lemma contact_table_is_bounded_witness :
  let steps := [Construct new_loader;
                Window ChildView (env_with (Some (2 ^ 32 + 3)) (Some pen_600)) 3001
                  WM_POINTERDOWN (2 ^ 40 + 5) 0] in
  let c := pointer_type_cache_ (world (process (λ _, "") (λ _, "") steps initial_world)) in
  cache_in_range (pointer_type_cache_ initial_world)
  ∧ cache_in_range c ∧ Z.of_nat (size c) ≤ 2 ^ 16.
Proof.
  assert (cache_in_range (pointer_type_cache_ initial_world)) as H
    by (intros k v Hkv; discriminate Hkv).
  split; [exact H|].
  exact (contact_table_is_bounded (λ _, "") (λ _, "")
           [Construct new_loader;
            Window ChildView (env_with (Some (2 ^ 32 + 3)) (Some pen_600)) 3001
              WM_POINTERDOWN (2 ^ 40 + 5) 0] initial_world H).
Defined.

(** X14: every message the process ever sends goes to the channel
    "winote/pointer_type" with the method [onPointerTypeDetected] and a
    payload of exactly the three keys, through any construction, set-up,
    messages and tear-down. *)
Theorem every_message_goes_to_the_winote_channel (show_HWND : HWND → string)
    (show_WNDPROC : WNDPROC → string) (steps : list Step) (s : World) (m : MethodCall) :
  channel_is_winote s →
  m ∈ channel_messages (out (process show_HWND show_WNDPROC steps s)) →
  mc_channel m = "winote/pointer_type"
  ∧ mc_method m = "onPointerTypeDetected"
  ∧ dom (mc_args m)
    = {[EncodableString "pointerId"; EncodableString "pointerType"; EncodableString "pressure"]}.
Proof.
  intros H Hm.
  destruct (process_channel_messages_elem show_HWND show_WNDPROC steps s m H Hm)
    as (Hc & Hmeth & ev & Hargs).
  split; [done|]. split; [done|]. rewrite Hargs. apply payload_dom.
Qed.

Lemma every_message_goes_to_the_winote_channel_witness :
  let steps := [Construct new_loader;
                Create (mkCreateEnv true true true (Some 3001) (Some 2001) 0);
                Window ChildView (env_with (Some PT_PEN) (Some pen_600)) 3001 WM_POINTERDOWN 5 0] in
  let m := mkMethodCall "winote/pointer_type" "onPointerTypeDetected"
             (payload (mkEvent 5 PT_PEN 600)) in
  channel_is_winote initial_world
  ∧ m ∈ channel_messages (out (process (λ _, "") (λ _, "") steps initial_world))
  ∧ mc_channel m = "winote/pointer_type".
Proof.
  assert (channel_is_winote initial_world) as H by (left; reflexivity).
  assert (mkMethodCall "winote/pointer_type" "onPointerTypeDetected"
            (payload (mkEvent 5 PT_PEN 600))
          ∈ channel_messages
              (out (process (λ _, "") (λ _, "")
                      [Construct new_loader;
                       Create (mkCreateEnv true true true (Some 3001) (Some 2001) 0);
                       Window ChildView (env_with (Some PT_PEN) (Some pen_600)) 3001
                         WM_POINTERDOWN 5 0] initial_world))) as Hm
    by (vm_compute; left).
  split; [exact H|]. split; [exact Hm|].
  exact (proj1 (every_message_goes_to_the_winote_channel _ _ _ _ _ H Hm)).
Defined.

(** X15: before [OnCreate] has run nothing reaches the application: in a
    process that starts without a channel and goes through no set-up, no
    channel message is sent, whatever is constructed, delivered or torn down. *)
Theorem nothing_is_sent_before_OnCreate (show_HWND : HWND → string)
    (show_WNDPROC : WNDPROC → string) (steps : list Step) (s : World) :
  pointer_channel_ s = None →
  Forall (λ st, ∀ ce, st ≠ Create ce) steps →
  channel_messages (out (process show_HWND show_WNDPROC steps s)) = [].
Proof.
  revert s. induction steps as [|st steps IH]; intros s H Hsteps; [done|].
  apply Forall_cons in Hsteps as [Hst Hsteps].
  rewrite (process_cons show_HWND show_WNDPROC). cbn zeta.
  assert (channel_messages (out (step show_HWND show_WNDPROC st s)) = []) as Hm.
  { rewrite (step_channel_messages show_HWND show_WNDPROC).
    destruct st as [ld|ce|via env hwnd message wparam lparam| |]; try done.
    by rewrite dispatch_channel_messages, H. }
  assert (pointer_channel_ (world (step show_HWND show_WNDPROC st s)) = None) as Hch.
  { rewrite (step_world show_HWND show_WNDPROC).
    destruct st as [ld|ce|via env hwnd message wparam lparam| |].
    - rewrite FlutterWindow_ctor_world. cbn [pointer_channel_ set_g_flutter_window].
      rewrite (proj1 (proj2 (InitializePointerApi_members ld _))). done.
    - by destruct (Hst ce).
    - rewrite dispatch_world. done.
    - rewrite OnDestroy_eq. done.
    - done. }
  destruct (val (step show_HWND show_WNDPROC st s)); cbn [out]; [|done].
  rewrite channel_messages_app, Hm, IH by done. done.
Qed.

Lemma nothing_is_sent_before_OnCreate_witness :
  let steps := [Construct new_loader;
                Window TopLevel (env_with (Some PT_PEN) (Some pen_600)) 3000 WM_POINTERDOWN 5 0] in
  pointer_channel_ initial_world = None
  ∧ Forall (λ st, ∀ ce, st ≠ Create ce) steps
  ∧ channel_messages (out (process (λ _, "") (λ _, "") steps initial_world)) = []
  ∧ forwarded (out (process (λ _, "") (λ _, "") steps initial_world)) = [mkEvent 5 PT_PEN 600].
Proof.
  assert (Forall (λ st, ∀ ce, st ≠ Create ce)
            [Construct new_loader;
             Window TopLevel (env_with (Some PT_PEN) (Some pen_600)) 3000 WM_POINTERDOWN 5 0])
    as H by (repeat first [apply List.Forall_nil | apply List.Forall_cons; [intros ce; discriminate|]]).
  split; [reflexivity|]. split; [exact H|].
  split; [exact (nothing_is_sent_before_OnCreate (λ _, "") (λ _, "") _ initial_world eq_refl H)|].
  vm_compute. reflexivity.
Defined.


(** ** The log file *)









Lemma LogToFile_initialized e message st :
  LogFile.g_log_initialized (LogFile.LogToFile e message st) = true.
Proof.
  unfold LogFile.LogToFile, LogFile.InitLogFile. cbn zeta.
  destruct st as [[] [[p l g]|]]; cbn;
    repeat match goal with
           | |- context [match ?x with _ => _ end] => destruct x; cbn
           end; done.
Qed.

Lemma InitLogFile_again e st :
  LogFile.g_log_initialized st = true → LogFile.InitLogFile e st = st.
Proof. intros H. unfold LogFile.InitLogFile. by rewrite H. Qed.

Lemma LogToFile_keeps_file e message st :
  LogFile.g_log_initialized st = true →
  match LogFile.g_log_file st with
  | None => LogFile.g_log_file (LogFile.LogToFile e message st) = None
  | Some f =>
      ∃ f', LogFile.g_log_file (LogFile.LogToFile e message st) = Some f'
            ∧ LogFile.path f' = LogFile.path f
            ∧ LogFile.lines f `prefix_of` LogFile.lines f'
  end.
Proof.
  intros H. unfold LogFile.LogToFile. cbn zeta. rewrite InitLogFile_again by done.
  destruct (LogFile.g_log_file st) as [f|] eqn:Hf; [|by rewrite Hf].
  destruct (LogFile.good f); [destruct (LogFile.can_write e)|]; cbn.
  - eexists. split; [done|]. split; [done|]. by apply prefix_app_r.
  - eexists. split; [done|]. split; [done | reflexivity].
  - rewrite Hf. exists f. split; [done|]. split; [done | reflexivity].
Qed.

Lemma log_all_keeps_file calls st :
  LogFile.g_log_initialized st = true →
  LogFile.g_log_initialized (LogFile.log_all calls st) = true
  ∧ match LogFile.g_log_file st with
    | None => LogFile.g_log_file (LogFile.log_all calls st) = None
    | Some f =>
        ∃ f', LogFile.g_log_file (LogFile.log_all calls st) = Some f'
              ∧ LogFile.path f' = LogFile.path f
              ∧ LogFile.lines f `prefix_of` LogFile.lines f'
    end.
Proof.
  revert st. induction calls as [|[e message] calls IH]; intros st H.
  - split; [done|]. cbn.
    destruct (LogFile.g_log_file st) as [f|]; [|done].
    exists f. split; [done|]. split; [done | reflexivity].
  - unfold LogFile.log_all. cbn [foldl fst snd]. fold (LogFile.log_all calls).
    pose proof (LogToFile_keeps_file e message st H) as Hstep.
    destruct (IH (LogFile.LogToFile e message st) (LogToFile_initialized e message st))
      as [Hi Hrest].
    split; [done|].
    destruct (LogFile.g_log_file st) as [f|].
    + destruct Hstep as (f1 & Hf1 & Hp1 & Hl1). rewrite Hf1 in Hrest.
      destruct Hrest as (f2 & Hf2 & Hp2 & Hl2).
      exists f2. split; [done|]. split; [congruence|]. by etrans.
    + by rewrite Hstep in Hrest.
Qed.

(** X21: the log file is opened at most once, by the first call.  Whatever
    the environment answers later, a file that did not open then is never
    opened (nothing is ever written), and a file that did open keeps its path
    and only ever grows at the end: no later call truncates or rewrites it. *)
Theorem log_file_is_opened_at_most_once (e : LogFile.Env) (message : string)
    (calls : list (LogFile.Env * string)) (st : LogFile.State) :
  let st1 := LogFile.LogToFile e message st in
  let st2 := LogFile.log_all calls st1 in
  LogFile.g_log_initialized st1 = true
  ∧ (LogFile.g_log_file st1 = None → LogFile.g_log_file st2 = None)
  ∧ (∀ f1, LogFile.g_log_file st1 = Some f1 →
       ∃ f2, LogFile.g_log_file st2 = Some f2
             ∧ LogFile.path f2 = LogFile.path f1
             ∧ LogFile.lines f1 `prefix_of` LogFile.lines f2)
  ∧ (LogFile.g_log_initialized st = false → LogFile.g_log_file st = None →
     LogFile.USERPROFILE e = None → LogFile.g_log_file st2 = None).
Proof.
  cbn zeta.
  pose proof (LogToFile_initialized e message st) as Hi.
  destruct (log_all_keeps_file calls _ Hi) as [_ Hrest].
  split; [done|]. split; [|split].
  - intros Hnone. by rewrite Hnone in Hrest.
  - intros f1 Hf1. by rewrite Hf1 in Hrest.
  - intros Huninit Hclosed Hprofile.
    assert (LogFile.g_log_file (LogFile.LogToFile e message st) = None) as Hnone.
    { unfold LogFile.LogToFile, LogFile.InitLogFile. cbn zeta.
      rewrite Huninit, Hprofile. cbn. by rewrite Hclosed. }
    by rewrite Hnone in Hrest.
Qed.

Lemma log_file_is_opened_at_most_once_witness :
  let no_profile := LogFile.mkEnv None (λ _, true) true 12 0 0 0 in
  let st2 := LogFile.log_all [(LogFile.noon, "second"); (LogFile.noon, "third")]
               (LogFile.LogToFile no_profile "first" LogFile.initial) in
  LogFile.g_log_initialized LogFile.initial = false
  ∧ LogFile.g_log_file LogFile.initial = None
  ∧ LogFile.USERPROFILE no_profile = None
  ∧ LogFile.g_log_file st2 = None.
Proof.
  split; [reflexivity|]. split; [reflexivity|]. split; [reflexivity|].
  exact (proj2 (proj2 (proj2 (log_file_is_opened_at_most_once
                                (LogFile.mkEnv None (λ _, true) true 12 0 0 0) "first"
                                [(LogFile.noon, "second"); (LogFile.noon, "third")]
                                LogFile.initial)))
           eq_refl eq_refl eq_refl).
Defined.

(** X22: when the first call finds USERPROFILE and can open the file, and
    every write goes through, the file
    USERPROFILE\Desktop\winote_native_log.txt holds one line for each call, in
    the order of the calls, and nothing else. *)
Theorem log_holds_one_line_per_call (e : LogFile.Env) (message : string)
    (calls : list (LogFile.Env * string)) (userProfile : string) :
  LogFile.USERPROFILE e = Some userProfile →
  LogFile.can_open e (userProfile +:+ "\Desktop\winote_native_log.txt") = true →
  Forall (λ c, LogFile.can_write c.1 = true) ((e, message) :: calls) →
  LogFile.log_all ((e, message) :: calls) LogFile.initial
  = LogFile.mkState true
      (Some (LogFile.mkStream (userProfile +:+ "\Desktop\winote_native_log.txt")
               ((λ c, LogFile.line c.1 c.2) <$> (e, message) :: calls) true)).
Proof.
  intros Hprofile Hopen Hwrite.
  apply Forall_cons in Hwrite as [Hw Hwrite]. cbn [fst] in Hw.
  unfold LogFile.log_all. cbn [foldl fst snd fmap list_fmap].
  assert (LogFile.LogToFile e message LogFile.initial
          = LogFile.mkState true
              (Some (LogFile.mkStream (userProfile +:+ "\Desktop\winote_native_log.txt")
                       [LogFile.line e message] true))) as ->.
  { unfold LogFile.LogToFile, LogFile.InitLogFile. cbn. rewrite Hprofile. cbn.
    rewrite Hopen. cbn. by rewrite Hw. }
  assert (∀ written,
            foldl (λ st c, LogFile.LogToFile c.1 c.2 st)
              (LogFile.mkState true
                 (Some (LogFile.mkStream (userProfile +:+ "\Desktop\winote_native_log.txt")
                          written true))) calls
            = LogFile.mkState true
                (Some (LogFile.mkStream (userProfile +:+ "\Desktop\winote_native_log.txt")
                         (written ++ ((λ c, LogFile.line c.1 c.2) <$> calls)) true))) as Hgen.
  { induction calls as [|[e' message'] calls IH]; intros written.
    - cbn. by rewrite app_nil_r.
    - apply Forall_cons in Hwrite as [Hw' Hwrite]. cbn [fst] in Hw'.
      cbn [foldl fst snd fmap list_fmap].
      assert (LogFile.LogToFile e' message'
                (LogFile.mkState true
                   (Some (LogFile.mkStream (userProfile +:+ "\Desktop\winote_native_log.txt")
                            written true)))
              = LogFile.mkState true
                  (Some (LogFile.mkStream (userProfile +:+ "\Desktop\winote_native_log.txt")
                           (written ++ [LogFile.line e' message']) true))) as ->.
      { unfold LogFile.LogToFile, LogFile.InitLogFile. cbn. by rewrite Hw'. }
      rewrite (IH Hwrite). by rewrite <- app_assoc. }
  apply Hgen.
Qed.

Lemma log_holds_one_line_per_call_witness :
  LogFile.USERPROFILE LogFile.noon = Some "C:\Users\me"
  ∧ LogFile.can_open LogFile.noon ("C:\Users\me" +:+ "\Desktop\winote_native_log.txt") = true
  ∧ Forall (λ c, LogFile.can_write c.1 = true) [(LogFile.noon, "a"); (LogFile.noon, "b")]
  ∧ LogFile.log_all [(LogFile.noon, "a"); (LogFile.noon, "b")] LogFile.initial
    = LogFile.mkState true
        (Some (LogFile.mkStream "C:\Users\me\Desktop\winote_native_log.txt"
                 ["[12:05:09.042] a"; "[12:05:09.042] b"] true)).
Proof.
  assert (Forall (λ c, LogFile.can_write c.1 = true) [(LogFile.noon, "a"); (LogFile.noon, "b")])
    as H by (repeat first [apply List.Forall_nil | apply List.Forall_cons; [reflexivity|]]).
  split; [reflexivity|]. split; [reflexivity|]. split; [exact H|].
  exact (log_holds_one_line_per_call LogFile.noon "a" [(LogFile.noon, "b")] "C:\Users\me"
           eq_refl eq_refl H).
Defined.
